(** * honeybee_3dm.grid: sensor grids from the objects of a Rhino layer

    A shallow embedding of [src/honeybee_3dm/grid.py]: the class
    [DataWriter] with its method [write_csv], and the function
    [import_grids].

    Python exceptions are values of [exception]; a computation that may
    raise and that reads and updates a state [S] lives in [M S].  The
    state of [write_csv] is the file system, the state of [import_grids]
    is the state of the identifier generator behind
    [clean_and_id_string].  A raise keeps the state reached so far, as
    in Python. *)

From Stdlib Require Import String Ascii ZArith List PrimFloat.
From stdpp Require Import base option list strings gmap pretty.

Local Open Scope string_scope.
Local Open Scope list_scope.

(** ** Exceptions and the state-and-exception monad *)

Inductive exception : Type :=
| ValueError (msg : string)
| AssertionError (msg : string)
| IndexError (msg : string)
| OtherError (cls msg : string).

Inductive outcome (A : Type) : Type :=
| Return (a : A)
| Raise (e : exception).

Arguments Return {A} a.
Arguments Raise {A} e.

Definition M (S A : Type) : Type := S → outcome A * S.

Definition ret {S A} (a : A) : M S A := λ s, (Return a, s).

Definition raise {S A} (e : exception) : M S A := λ s, (Raise e, s).

Definition bind {S A B} (m : M S A) (k : A → M S B) : M S B :=
  λ s, match m s with
       | (Return a, s') => k a s'
       | (Raise e, s') => (Raise e, s')
       end.

(** A pure computation that may raise, run inside [M]. *)
Definition lift {S A} (o : outcome A) : M S A := λ s, (o, s).

Declare Scope py_scope.
Delimit Scope py_scope with py.
Notation "x <- m ;; k" := (bind m (λ x, k))
  (at level 100, m at next level, right associativity) : py_scope.
Notation "m ;;; k" := (bind m (λ _, k))
  (at level 100, right associativity) : py_scope.
Local Open Scope py_scope.

(** [for x in xs: body], with the loop-carried variables in [acc]; a
    raise in the body leaves the loop at once. *)
Fixpoint for_each {S A B} (body : B → A → M S A) (xs : list B) (acc : A)
  : M S A :=
  match xs with
  | [] => ret acc
  | x :: rest => acc' <- body x acc ;; for_each body rest acc'
  end.

(** ** Python values that the module inspects *)

(** The cells of a row handed to [csv.writer]. *)
Inductive cell : Type :=
| Str (s : string)
| Int (n : Z).

Definition row : Type := list cell.

(** The argument [grid_controls]: [None], a tuple or a list of floats;
    a bare number or a bool can be passed as well, though they cannot
    be indexed. *)
Inductive controls : Type :=
| CNone
| CBool (b : bool)
| CNum (x : float)
| CTuple (items : list float)
| CList (items : list float).

(** Truth value testing, as [if x] and [x or y] perform it. *)
Definition truthy_str (s : string) : bool :=
  match s with
  | EmptyString => false
  | String _ _ => true
  end.

Definition truthy_opt_str (o : option string) : bool :=
  match o with
  | None => false
  | Some s => truthy_str s
  end.

Definition truthy_controls (c : controls) : bool :=
  match c with
  | CNone => false
  | CBool b => b
  | CNum x => negb (PrimFloat.eqb x 0)
  | CTuple [] | CList [] => false
  | CTuple (_ :: _) | CList (_ :: _) => true
  end.

(** [c[i]] for an index that is not negative: a [TypeError] on a value
    that is no sequence, an [IndexError] past the end. *)
Definition getitem (c : controls) (i : nat) : outcome float :=
  match c with
  | CNone => Raise (OtherError "TypeError" "'NoneType' object is not subscriptable")
  | CBool _ => Raise (OtherError "TypeError" "'bool' object is not subscriptable")
  | CNum _ => Raise (OtherError "TypeError" "'float' object is not subscriptable")
  | CTuple items =>
      match nth_error items i with
      | Some x => Return x
      | None => Raise (IndexError "tuple index out of range")
      end
  | CList items =>
      match nth_error items i with
      | Some x => Return x
      | None => Raise (IndexError "list index out of range")
      end
  end.

(** ** The file system seen by [write_csv] *)

Record filesystem : Type := {
  dirs : gset string;
  files : gmap string string
}.

(** A path exists when it is a directory or a file of [fs]. *)
Definition path_exists (fs : filesystem) (p : string) : bool :=
  bool_decide (p ∈ dirs fs) || bool_decide (is_Some (files fs !! p)).

(** [os.path.exists]. *)
Definition os_path_exists (p : string) : M filesystem bool :=
  λ fs, (Return (path_exists fs p), fs).

(** [fs] with the file at [path] holding exactly [text]. *)
Definition with_file (fs : filesystem) (path text : string) : filesystem :=
  {| dirs := dirs fs; files := <[path := text]> (files fs) |}.

(** Text written through the open handle is appended to the file. *)
Definition write (file_name text : string) : M filesystem unit :=
  λ fs, (Return tt,
         {| dirs := dirs fs;
            files := <[file_name := default "" (files fs !! file_name) +:+ text]> (files fs) |}).

(** What the Python standard library and the operating system
    contribute to [write_csv]: [os.path.join]; the text that
    [csv.writer(f, delimiter=d).writerow(r)] hands to [f]; and the
    verdict of the operating system on [open(path, mode='w')], which is
    the exception the call raises ([FileNotFoundError],
    [NotADirectoryError], [IsADirectoryError], [PermissionError], ...)
    or [None] when the file can be opened.  The one thing taken for
    granted about that verdict is that a file which could be opened for
    writing can be opened again once it has been written. *)
Class Stdlib_py : Type := {
  os_path_join : string → string → string;
  csv_writerow : string → row → string;
  open_error : filesystem → string → option exception;
  open_again : ∀ fs path text,
    open_error fs path = None → open_error (with_file fs path text) path = None
}.

(** [open(file_name, mode='w')] of line 32: the exception of the
    operating system, with nothing changed, or else the file created, or
    truncated when it is there already. *)
Definition open_w `{Stdlib_py} (file_name : string) : M filesystem unit :=
  λ fs, match open_error fs file_name with
        | Some e => (Raise e, fs)
        | None => (Return tt, with_file fs file_name "")
        end.

(** ** class DataWriter *)

Module DataWriter.
Record t : Type := {
  name : string;
  data : list row;
  target_folder : option string
}.
End DataWriter.

Section Writer.
Context `{Py : Stdlib_py}.

(** Lines 22-30: the choice of [file_name]. *)
Definition file_name_of (self : DataWriter.t) : M filesystem string :=
  if truthy_opt_str (DataWriter.target_folder self) then
    let folder := default "" (DataWriter.target_folder self) in
    there <- os_path_exists folder ;;
    if negb there then raise (ValueError "Target foldder is not a valid path.")
    else ret (os_path_join folder (DataWriter.name self +:+ ".csv"))
  else ret (DataWriter.name self +:+ ".csv").

(** Lines 35-36: one [writerow] per element of [self.data]. *)
Definition write_rows (file_name : string) (rows : list row) : M filesystem unit :=
  for_each (λ data (_ : unit), write file_name (csv_writerow "," data)) rows tt.

Definition write_csv (self : DataWriter.t) : M filesystem unit :=
  file_name <- file_name_of self ;;
  open_w file_name ;;;
  write_rows file_name (DataWriter.data self).

End Writer.

(** ** The Rhino model and the sensor grids *)

Module Layer.
Record t : Type := { Name : string; Index : Z }.
End Layer.

Inductive ObjectType : Type := Point | Curve | Surface | Brep | Extrusion | Mesh.

Module GeometryBase.
Record t : Type := { kind : ObjectType; raw : string }.
End GeometryBase.

Module ObjectAttributes.
Record t : Type := { Id : string; Name : string }.
End ObjectAttributes.

Module File3dmObject.
Record t : Type := { Geometry : GeometryBase.t; Attributes : ObjectAttributes.t }.
End File3dmObject.

(** [isinstance(geo, rhino3dm.Mesh)]. *)
Definition isinstance_Mesh (geo : GeometryBase.t) : bool :=
  match GeometryBase.kind geo with
  | Mesh => true
  | _ => false
  end.

Definition vec3 : Type := float * float * float.

Module Sensor.
Record t : Type := { pos : vec3; dir : vec3 }.
End Sensor.

Module SensorGrid.
Record t : Type := { identifier : string; sensors : list Sensor.t }.

(** Modelled from the spec: [honeybee_radiance.sensorgrid.SensorGrid] is
    a library class whose code is not part of [src/].  The spec gives
    the merge service as [merge(identifier, positions, directions) ->
    Grid], a sensor grid as an ordered, named collection of sample
    points, and a sample point as a position with a direction: the grid
    pairs the positions with the directions, in order, under the given
    identifier. *)
Definition from_position_and_direction
    (identifier : string) (positions directions : list vec3) : t :=
  {| identifier := identifier;
     sensors := zip_with Sensor.Build_t positions directions |}.

(** [len(grid)]. *)
Definition len (g : t) : Z := Z.of_nat (length (sensors g)).
End SensorGrid.

(** The collaborators of [import_grids]: the layer queries of
    [honeybee_3dm.layer], the face conversion of
    [honeybee_3dm.togeometry], the string cleaners of [honeybee.typing]
    and the seeding constructor of [SensorGrid].  [to_face3d], which the
    source guards with a handler, and [from_face3d], which it calls
    outside of that handler, may raise.  [clean_and_id_string] draws on
    the state of the identifier generator. *)
Class Services : Type := {
  File3dm : Type;
  Face3D : Type;
  IdState : Type;
  objects_on_layer : File3dm → Layer.t → list File3dmObject.t;
  objects_on_parent_child : File3dm → string → list File3dmObject.t;
  to_face3d : File3dmObject.t → float → outcome (list Face3D);
  clean_string : string → string;
  clean_and_id_string : string → IdState → string * IdState;
  from_face3d : string → list Face3D → float → float → float → outcome SensorGrid.t
}.

(** ** import_grids *)

Section Grids.
Context `{Sv : Services}.

(** Lines 90-95: the message of the re-raised [AssertionError]. *)
Definition check_message (obj : File3dmObject.t) : string :=
  "Please check object with ID: "
  +:+ ObjectAttributes.Id (File3dmObject.Attributes obj) +:+ "."
  +:+ " Either the object has faces too small for the grid size, or the"
  +:+ " object is not supported for grids. You should try again with a"
  +:+ " smaller grid size in the config file.".

(** Lines 87-95: [try: faces = to_face3d(obj, tolerance)] with its
    [except AssertionError] clause; any other exception passes through. *)
Definition try_to_face3d (obj : File3dmObject.t) (tolerance : float)
  : outcome (list Face3D) :=
  match to_face3d obj tolerance with
  | Return faces => Return faces
  | Raise (AssertionError _) => Raise (AssertionError (check_message obj))
  | Raise e => Raise e
  end.

(** Line 97: [name or clean_and_id_string('Grid')]. *)
Definition obj_name_of (obj : File3dmObject.t) : M IdState string :=
  let name := ObjectAttributes.Name (File3dmObject.Attributes obj) in
  if truthy_str name then ret name
  else λ ids, let '(fresh, ids') := clean_and_id_string "Grid" ids in (Return fresh, ids').

(** Lines 98-100: the list [args], its elements evaluated left to right. *)
Definition args_of (obj_name : string) (faces : list Face3D) (grid_controls : controls)
  : outcome (string * list Face3D * float * float * float) :=
  let identifier := clean_string obj_name in
  match getitem grid_controls 0 with
  | Raise e => Raise e
  | Return c0 =>
      match getitem grid_controls 0 with
      | Raise e => Raise e
      | Return c0' =>
          match getitem grid_controls 1 with
          | Raise e => Raise e
          | Return c1 => Return (identifier, faces, c0, c0', c1)
          end
      end
  end.

(** Line 102: [SensorGrid.from_face3d( *args )], outside of the [try]:
    what it raises leaves the function as it is. *)
Definition from_face3d_star (args : string * list Face3D * float * float * float)
  : outcome SensorGrid.t :=
  let '(identifier, faces, x_dim, y_dim, offset) := args in
  from_face3d identifier faces x_dim y_dim offset.

(** Lines 76-102: what one iteration computes from [obj] before it
    touches the accumulators: the working name and the seeded grid. *)
Definition seed_object (tolerance : float) (grid_controls : controls)
    (obj : File3dmObject.t) : M IdState (string * SensorGrid.t) :=
  let geo := File3dmObject.Geometry obj in
  if isinstance_Mesh geo then raise (ValueError "Mesh is not accepted.")
  else
    faces <- lift (try_to_face3d obj tolerance) ;;
    obj_name <- obj_name_of obj ;;
    args <- lift (args_of obj_name faces grid_controls) ;;
    sens <- lift (from_face3d_star args) ;;
    ret (obj_name, sens).

(** The loop-carried variables [grid_pos], [grid_dir] and [data]. *)
Definition accumulators : Type := list vec3 * list vec3 * list row.

(** Lines 103-108: the accumulators after one object. *)
Definition accumulate (obj_name : string) (sens : SensorGrid.t) (acc : accumulators)
  : accumulators :=
  let '(grid_pos, grid_dir, data) := acc in
  let pos := map Sensor.pos (SensorGrid.sensors sens) in
  let dir := map Sensor.dir (SensorGrid.sensors sens) in
  (grid_pos ++ pos, grid_dir ++ dir, data ++ [[Str obj_name; Int (SensorGrid.len sens)]]).

(** Lines 75-108: the body of [for obj in grid_objs]. *)
Definition loop_body (tolerance : float) (grid_controls : controls)
    (obj : File3dmObject.t) (acc : accumulators) : M IdState accumulators :=
  seeded <- seed_object tolerance grid_controls obj ;;
  ret (accumulate (fst seeded) (snd seeded) acc).

(** Lines 63-69: the objects the loop runs over. *)
Definition grid_objs_of (rhino3dm_file : File3dm) (layer : Layer.t) (child_layer : bool)
  : list File3dmObject.t :=
  if negb child_layer then objects_on_layer rhino3dm_file layer
  else objects_on_parent_child rhino3dm_file (Layer.Name layer).

(** Lines 71-73: the default grid settings. *)
Definition grid_controls_or_default (grid_controls : controls) : controls :=
  if negb (truthy_controls grid_controls) then CTuple [1.0; 1.0; 0.0]%float
  else grid_controls.

Definition import_grids (rhino3dm_file : File3dm) (layer : Layer.t) (tolerance : float)
    (grid_controls : controls) (child_layer : bool)
  : M IdState (list SensorGrid.t * list row) :=
  let hb_grids := [] in
  let grid_objs := grid_objs_of rhino3dm_file layer child_layer in
  let grid_controls := grid_controls_or_default grid_controls in
  acc <- for_each (loop_body tolerance grid_controls) grid_objs ([], [], []) ;;
  let '(grid_pos, grid_dir, data) := acc in
  let hb_grids :=
    hb_grids ++ [SensorGrid.from_position_and_direction
                   (Layer.Name layer) grid_pos grid_dir] in
  ret (hb_grids, data).

End Grids.

(** ** Vocabulary of the properties *)

(** [part] occurs in [whole]. *)
Definition includes (part whole : string) : Prop :=
  ∃ before after, whole = before +:+ part +:+ after.

(** [r[1]] read as a point count. *)
Definition point_count (r : row) : Z :=
  match r with
  | [_; Int n] => n
  | _ => 0%Z
  end.

Definition sum_counts (rows : list row) : Z :=
  foldr (λ r total, (point_count r + total)%Z) 0%Z rows.

(** The elements of a sequence of grid controls. *)
Definition items_of (c : controls) : list float :=
  match c with
  | CNone | CBool _ | CNum _ => []
  | CTuple items | CList items => items
  end.

(** The grid controls are unset (falsy) or carry at least the two
    spacings that the loop reads. *)
Definition well_formed_controls (c : controls) : Prop :=
  truthy_controls c = false ∨ ∃ spacing_x spacing_y rest, items_of c = spacing_x :: spacing_y :: rest.

Section WriterVocabulary.
Context `{Py : Stdlib_py}.

(** The records of [rows], one [writerow] each, in the order of [rows]
    and with nothing before, between or after them. *)
Definition csv_text (rows : list row) : string :=
  foldr (λ data text, csv_writerow "," data +:+ text) "" rows.

(** The file name [write_csv] settles on when it does not raise. *)
Definition chosen_path (name : string) (target_folder : option string) : string :=
  if truthy_opt_str target_folder
  then os_path_join (default "" target_folder) (name +:+ ".csv")
  else name +:+ ".csv".

End WriterVocabulary.

Section GridVocabulary.
Context `{Sv : Services}.

(** [obj] is not a mesh and [to_face3d] returns faces for it. *)
Definition convertible (tolerance : float) (obj : File3dmObject.t) : Prop :=
  isinstance_Mesh (File3dmObject.Geometry obj) = false
  ∧ ∃ faces, to_face3d obj tolerance = Return faces.

(** The seeding of [obj] returns a grid: [from_face3d] does, on the
    faces of [obj] and the two spacings, under the stored name of [obj]
    or, for an object without one, under whatever name is generated. *)
Definition seeds (tolerance : float) (grid_controls : controls)
    (obj : File3dmObject.t) : Prop :=
  ∀ faces spacing_x spacing_y obj_name,
    to_face3d obj tolerance = Return faces →
    getitem grid_controls 0 = Return spacing_x →
    getitem grid_controls 1 = Return spacing_y →
    (ObjectAttributes.Name (File3dmObject.Attributes obj) ≠ "" →
     obj_name = ObjectAttributes.Name (File3dmObject.Attributes obj)) →
    ∃ sens,
      from_face3d (clean_string obj_name) faces spacing_x spacing_x spacing_y
      = Return sens.

(** The working names and seeded grids of the objects, one object after
    the other, each as [seed_object] computes it. *)
Fixpoint seed_all (tolerance : float) (grid_controls : controls)
    (objs : list File3dmObject.t) : M IdState (list (string * SensorGrid.t)) :=
  match objs with
  | [] => ret []
  | obj :: rest =>
      seeded <- seed_object tolerance grid_controls obj ;;
      others <- seed_all tolerance grid_controls rest ;;
      ret (seeded :: others)
  end.

Definition sensors_of (seeded : string * SensorGrid.t) : list Sensor.t :=
  SensorGrid.sensors (snd seeded).

Definition summary_row (seeded : string * SensorGrid.t) : row :=
  [Str (fst seeded); Int (SensorGrid.len (snd seeded))].

(** The accumulators after the loop, from the seeded grids. *)
Definition accumulated (seeded : list (string * SensorGrid.t)) (acc : accumulators)
  : accumulators :=
  let '(grid_pos, grid_dir, data) := acc in
  (grid_pos ++ map Sensor.pos (concat (map sensors_of seeded)),
   grid_dir ++ map Sensor.dir (concat (map sensors_of seeded)),
   data ++ map summary_row seeded).

(** The accumulators agree with one another: as many directions as
    positions, and as many points as the rows of the summary count. *)
Definition balanced (acc : accumulators) : Prop :=
  let '(grid_pos, grid_dir, data) := acc in
  length grid_pos = length grid_dir
  ∧ sum_counts data = Z.of_nat (length grid_pos).

(** The state of the identifier generator after the objects of [objs]:
    one identifier drawn for each object without a stored name, in the
    order of the objects, none for the others. *)
Definition ids_after (objs : list File3dmObject.t) (ids : IdState) : IdState :=
  fold_left
    (λ state obj,
       if truthy_str (ObjectAttributes.Name (File3dmObject.Attributes obj)) then state
       else snd (clean_and_id_string "Grid" state))
    objs ids.

(** The [for] loop has come to [obj]: the objects before it went through
    the loop body without a raise. *)
Definition loop_reaches (tolerance : float) (grid_controls : controls)
    (grid_objs : list File3dmObject.t) (obj : File3dmObject.t) (ids : IdState) : Prop :=
  ∃ before after acc ids',
    grid_objs = before ++ obj :: after
    ∧ for_each (loop_body tolerance grid_controls) before ([], [], []) ids
      = (Return acc, ids').

End GridVocabulary.

(** ** A concrete set of collaborators

    Small executable stand-ins for the library services, on which the
    definitions above can be run. *)

Module Demo.

(** Stands in for [honeybee.typing.clean_string]: spaces become
    underscores, and of the rest only letters, digits, dot, underscore
    and dash are kept.  The digest that the library returns for a name
    without any such character is not reproduced. *)
Definition identifier_char (c : ascii) : bool :=
  let n := nat_of_ascii c in
  ((65 <=? n) && (n <=? 90) || (97 <=? n) && (n <=? 122) || (48 <=? n) && (n <=? 57)
   || (n =? 46) || (n =? 95) || (n =? 45))%nat.

Fixpoint keep_identifier_chars (s : string) : string :=
  match s with
  | EmptyString => EmptyString
  | String c rest =>
      if (nat_of_ascii c =? 32)%nat then String (ascii_of_nat 95) (keep_identifier_chars rest)
      else if identifier_char c then String c (keep_identifier_chars rest)
      else keep_identifier_chars rest
  end.

(** A file is the list of its objects, each with the index of its
    layer. *)
Definition file : Type := list (Z * File3dmObject.t).

(** A face is the number of sensors it will carry. *)
Definition face : Type := nat.

(** Stands in for [to_face3d]: a curve has no faces, a point is no
    geometry to take faces from, and a surface without data fails the
    assertion of the face constructor. *)
Definition faces_of_object (obj : File3dmObject.t) (tolerance : float)
  : outcome (list face) :=
  match GeometryBase.kind (File3dmObject.Geometry obj) with
  | Point => Raise (OtherError "AttributeError" "object has no attribute Faces")
  | Curve => Return []
  | _ =>
      match GeometryBase.raw (File3dmObject.Geometry obj) with
      | EmptyString => Raise (AssertionError "Face3D must have at least 3 vertices.")
      | raw => Return [String.length raw]
      end
  end.

Definition seeded_sensor (x_dim y_dim offset : float) : Sensor.t :=
  {| Sensor.pos := (x_dim, y_dim, offset); Sensor.dir := (0, 0, 1)%float |}.

(** Stands in for [SensorGrid.from_face3d]: no grid without faces, and
    no grid with a spacing of zero. *)
Definition seed_faces (identifier : string) (faces : list face)
    (x_dim y_dim offset : float) : outcome SensorGrid.t :=
  match faces with
  | [] => Raise (AssertionError "No sensors for the grid.")
  | _ =>
      if PrimFloat.eqb x_dim 0 || PrimFloat.eqb y_dim 0
      then Raise (OtherError "ZeroDivisionError" "float division by zero")
      else Return {| SensorGrid.identifier := identifier;
                     SensorGrid.sensors :=
                       flat_map (λ n, repeat (seeded_sensor x_dim y_dim offset) n) faces |}
  end.

#[export] Instance services : Services := {|
  File3dm := file;
  Face3D := face;
  IdState := nat;
  objects_on_layer f layer :=
    map snd (filter (λ entry, Z.eqb (fst entry) (Layer.Index layer)) f);
  objects_on_parent_child f _ := map snd f;
  to_face3d := faces_of_object;
  clean_string := keep_identifier_chars;
  clean_and_id_string value ids :=
    (keep_identifier_chars value +:+ "_" +:+ pretty ids, S ids);
  from_face3d := seed_faces
|}.

Definition str_of_cell (c : cell) : string :=
  match c with
  | Str s => s
  | Int n => pretty n
  end.

Definition crlf : string := String (ascii_of_nat 13) (String (ascii_of_nat 10) EmptyString).

(** The text of [p] before its last slash, when it has one. *)
Fixpoint parent_of (p : string) : option string :=
  match p with
  | EmptyString => None
  | String c rest =>
      match parent_of rest with
      | Some parent => Some (String c parent)
      | None => if (nat_of_ascii c =? 47)%nat then Some EmptyString else None
      end
  end.

(** Stands in for the operating system: a directory cannot be opened
    for writing, and a file can only be opened in the working directory,
    at the root or in a directory that exists. *)
Definition open_verdict (fs : filesystem) (path : string) : option exception :=
  if bool_decide (path ∈ dirs fs)
  then Some (OtherError "IsADirectoryError" "Is a directory")
  else match parent_of path with
       | None | Some EmptyString => None
       | Some parent =>
           if bool_decide (parent ∈ dirs fs) then None
           else if bool_decide (is_Some (files fs !! parent))
                then Some (OtherError "NotADirectoryError" "Not a directory")
                else Some (OtherError "FileNotFoundError" "No such file or directory")
       end.

Lemma open_verdict_again fs path text :
  open_verdict fs path = None → open_verdict (with_file fs path text) path = None.
Proof.
  unfold open_verdict, with_file. cbn [dirs files].
  destruct (bool_decide (path ∈ dirs fs)); [discriminate|].
  destruct (parent_of path) as [[|c parent]|]; try reflexivity.
  destruct (bool_decide (String c parent ∈ dirs fs)); [reflexivity|].
  now destruct (bool_decide (is_Some (files fs !! String c parent))).
Qed.

#[export] Instance stdlib_py : Stdlib_py := {|
  os_path_join a b := a +:+ "/" +:+ b;
  csv_writerow delimiter r := String.concat delimiter (map str_of_cell r) +:+ crlf;
  open_error := open_verdict;
  open_again := open_verdict_again
|}.

Definition object (kind : ObjectType) (raw id name : string) : File3dmObject.t :=
  {| File3dmObject.Geometry := {| GeometryBase.kind := kind; GeometryBase.raw := raw |};
     File3dmObject.Attributes := {| ObjectAttributes.Id := id; ObjectAttributes.Name := name |} |}.

Definition grid_layer : Layer.t := {| Layer.Name := "grid"; Layer.Index := 1 |}.
Definition empty_layer : Layer.t := {| Layer.Name := "spare"; Layer.Index := 7 |}.

Definition floor_a : File3dmObject.t := object Brep "xx" "id-a" "my grid".
Definition floor_b : File3dmObject.t := object Extrusion "xxx" "id-b" "".
Definition a_mesh : File3dmObject.t := object Mesh "x" "id-m" "mesh".
Definition a_curve : File3dmObject.t := object Curve "x" "id-c" "edge".
Definition a_sliver : File3dmObject.t := object Brep "" "id-s" "sliver".
Definition a_point : File3dmObject.t := object Point "x" "id-p" "origin".

Definition good_file : file := [(1%Z, floor_a); (2%Z, a_mesh); (1%Z, floor_b)].
Definition mesh_file : file := [(1%Z, floor_a); (1%Z, a_mesh); (1%Z, floor_b)].
Definition curve_file : file := [(1%Z, floor_a); (1%Z, a_curve)].
Definition sliver_file : file := [(1%Z, floor_a); (1%Z, a_sliver); (1%Z, a_mesh)].
Definition point_file : file := [(1%Z, floor_a); (1%Z, a_point)].

Definition report (target_folder : option string) : DataWriter.t :=
  {| DataWriter.name := "report";
     DataWriter.data := [[Str "A"; Int 3]; [Str "B"; Int 5]];
     DataWriter.target_folder := target_folder |}.

Definition no_files : filesystem := {| dirs := ∅; files := ∅ |}.
Definition with_out_dir : filesystem :=
  {| dirs := {["out"]}; files := {["out/report.csv" := "stale"]} |}.

End Demo.

(** * Properties *)

(** ** The monad and the loop *)

Lemma bind_return {S A B} (m : M S A) (k : A → M S B) s a s' :
  m s = (Return a, s') → bind m k s = k a s'.
Proof. intros Hm. unfold bind. now rewrite Hm. Qed.

Lemma bind_raise {S A B} (m : M S A) (k : A → M S B) s e s' :
  m s = (Raise e, s') → bind m k s = (Raise e, s').
Proof. intros Hm. unfold bind. now rewrite Hm. Qed.

(** A [bind] that returns: both halves returned. *)
Lemma bind_returns {S A B} (m : M S A) (k : A → M S B) s b s2 :
  bind m k s = (Return b, s2) →
  ∃ a s1, m s = (Return a, s1) ∧ k a s1 = (Return b, s2).
Proof.
  unfold bind. destruct (m s) as [[a|e] s1]; intros Hk.
  - now exists a, s1.
  - discriminate.
Qed.

(** The loop over [xs ++ ys] is the loop over [xs] followed by the loop
    over [ys]. *)
Lemma for_each_app {S A B} (body : B → A → M S A) xs ys acc s :
  for_each body (xs ++ ys) acc s
  = bind (for_each body xs acc) (for_each body ys) s.
Proof.
  revert acc s. induction xs as [|x xs IH]; intros acc s; simpl.
  - reflexivity.
  - unfold bind. destruct (body x acc s) as [[acc'|e] s1]; [|reflexivity].
    rewrite IH. reflexivity.
Qed.

(** ** write_csv *)

Lemma append_empty_r (s : string) : s +:+ "" = s.
Proof.
  induction s as [|c s IH]; [reflexivity|].
  change (String c (s +:+ "") = String c s). now rewrite IH.
Qed.

Lemma append_assoc (a b c : string) : (a +:+ b) +:+ c = a +:+ (b +:+ c).
Proof.
  induction a as [|x a IH]; [reflexivity|].
  change (String x ((a +:+ b) +:+ c) = String x (a +:+ (b +:+ c))). now rewrite IH.
Qed.

Lemma truthy_str_true s : truthy_str s = true ↔ s ≠ "".
Proof. destruct s; simpl; split; congruence. Qed.

Section WriterFacts.
Context `{Py : Stdlib_py}.

Lemma os_path_exists_eq p fs : os_path_exists p fs = (Return (path_exists fs p), fs).
Proof. reflexivity. Qed.

Lemma write_rows_appends file_name rows fs text :
  files fs !! file_name = Some text →
  write_rows file_name rows fs
  = (Return tt, with_file fs file_name (text +:+ csv_text rows)).
Proof.
  revert fs text. induction rows as [|data rows IH]; intros fs text Hfile.
  - cbn. rewrite append_empty_r. unfold with_file, ret.
    rewrite insert_id by exact Hfile. now destruct fs.
  - unfold write_rows in *. cbn [for_each].
    erewrite bind_return; [|reflexivity].
    rewrite (IH _ (text +:+ csv_writerow "," data)).
    + cbn [files dirs]. unfold with_file. cbn [files dirs csv_text foldr].
      rewrite insert_insert_eq, append_assoc. reflexivity.
    + cbn [files]. rewrite Hfile. cbn. apply lookup_insert_eq.
Qed.

Lemma open_w_opens file_name fs :
  open_error fs file_name = None →
  open_w file_name fs = (Return tt, with_file fs file_name "").
Proof. intros Hopen. unfold open_w. now rewrite Hopen. Qed.

Lemma open_w_fails file_name fs e :
  open_error fs file_name = Some e → open_w file_name fs = (Raise e, fs).
Proof. intros Hopen. unfold open_w. now rewrite Hopen. Qed.

(** Once [file_name] is chosen and opened, the call leaves exactly the
    records of the rows in it, whatever the file held before. *)
Lemma write_csv_with_file_name self fs file_name :
  file_name_of self fs = (Return file_name, fs) →
  open_error fs file_name = None →
  write_csv self fs
  = (Return tt, with_file fs file_name (csv_text (DataWriter.data self))).
Proof.
  intros Hname Hopen. unfold write_csv.
  erewrite bind_return; [|exact Hname].
  erewrite bind_return; [|now apply open_w_opens].
  erewrite write_rows_appends; [|apply lookup_insert_eq].
  unfold with_file. cbn [files dirs]. now rewrite insert_insert_eq.
Qed.

(** When the chosen file cannot be opened, the exception of [open] is
    the exception of the call, and nothing is written. *)
Lemma write_csv_open_fails self fs file_name e :
  file_name_of self fs = (Return file_name, fs) →
  open_error fs file_name = Some e →
  write_csv self fs = (Raise e, fs).
Proof.
  intros Hname Hopen. unfold write_csv.
  erewrite bind_return; [|exact Hname].
  apply bind_raise. now apply open_w_fails.
Qed.




(** C8, as amended.  For every call with a non-empty [target_folder]
    that does not exist as a path, [write_csv] raises the [ValueError] of
    line 25 before any file is opened: the file system is left as it was. *)
Theorem write_csv_missing_folder (self : DataWriter.t) (folder : string) (fs : filesystem) :
  DataWriter.target_folder self = Some folder →
  folder ≠ "" →
  path_exists fs folder = false →
  write_csv self fs = (Raise (ValueError "Target foldder is not a valid path."), fs).
Proof.
  intros Hfolder Hne Hmissing. unfold write_csv.
  apply bind_raise. unfold file_name_of. rewrite Hfolder. cbn [truthy_opt_str default from_option id].
  apply truthy_str_true in Hne. rewrite Hne.
  erewrite bind_return; [|apply os_path_exists_eq]. now rewrite Hmissing.
Qed.

End WriterFacts.

(** ** import_grids *)

Lemma zip_with_sensor (l : list Sensor.t) :
  zip_with Sensor.Build_t (map Sensor.pos l) (map Sensor.dir l) = l.
Proof.
  induction l as [|[p d] l IH]; [reflexivity|].
  cbn. now rewrite IH.
Qed.

Lemma getitem_items c i x :
  truthy_controls c = true → nth_error (items_of c) i = Some x → getitem c i = Return x.
Proof.
  destruct c as [|b|y|items|items]; cbn [items_of getitem]; intros Htruthy Hnth;
    try (destruct i; discriminate); now rewrite Hnth.
Qed.

Section GridFacts.
Context `{Sv : Services}.

(** The defaulted controls of a well-formed argument hold two spacings. *)
Lemma well_formed_getitem grid_controls :
  well_formed_controls grid_controls →
  ∃ spacing_x spacing_y,
    getitem (grid_controls_or_default grid_controls) 0 = Return spacing_x
    ∧ getitem (grid_controls_or_default grid_controls) 1 = Return spacing_y.
Proof.
  unfold grid_controls_or_default, well_formed_controls.
  destruct (truthy_controls grid_controls) eqn:Htruthy; cbn [negb].
  - intros [Hfalsy | (x & y & rest & Hitems)]; [discriminate|].
    exists x, y. split; apply getitem_items; try assumption; now rewrite Hitems.
  - intros _. now exists 1.0%float, 1.0%float.
Qed.

(** [seed_object] at an object that converts and seeds, with both
    spacings at hand. *)
Lemma seed_object_convertible tolerance grid_controls obj ids spacing_x spacing_y :
  convertible tolerance obj →
  seeds tolerance grid_controls obj →
  getitem grid_controls 0 = Return spacing_x →
  getitem grid_controls 1 = Return spacing_y →
  ∃ seeded ids', seed_object tolerance grid_controls obj ids = (Return seeded, ids').
Proof.
  intros [Hkind [faces Hfaces]] Hseeds H0 H1. unfold seed_object. rewrite Hkind.
  unfold try_to_face3d. rewrite Hfaces.
  erewrite bind_return; [|reflexivity].
  unfold obj_name_of.
  destruct (truthy_str _) eqn:Hnamed.
  - erewrite bind_return; [|reflexivity].
    unfold args_of. rewrite H0, H1.
    erewrite bind_return; [|reflexivity].
    destruct (Hseeds faces spacing_x spacing_y _ Hfaces H0 H1 (λ _, eq_refl)) as [sens Hsens].
    unfold lift, from_face3d_star. rewrite Hsens.
    erewrite bind_return; [|reflexivity]. now do 2 eexists.
  - unfold bind at 1. destruct (clean_and_id_string "Grid" ids) as [fresh ids'].
    unfold args_of. rewrite H0, H1.
    erewrite bind_return; [|reflexivity].
    destruct (Hseeds faces spacing_x spacing_y fresh Hfaces H0 H1) as [sens Hsens].
    { intros Hne. apply truthy_str_true in Hne. congruence. }
    unfold lift, from_face3d_star. rewrite Hsens.
    erewrite bind_return; [|reflexivity]. now do 2 eexists.
Qed.

Lemma seed_all_convertible tolerance grid_controls objs ids spacing_x spacing_y :
  Forall (λ obj, convertible tolerance obj ∧ seeds tolerance grid_controls obj) objs →
  getitem grid_controls 0 = Return spacing_x →
  getitem grid_controls 1 = Return spacing_y →
  ∃ seeded ids', seed_all tolerance grid_controls objs ids = (Return seeded, ids').
Proof.
  intros Hall H0 H1. revert ids.
  induction Hall as [|obj objs [Hobj Hseeds] _ IH]; intros ids.
  - now exists [], ids.
  - destruct (seed_object_convertible tolerance grid_controls obj ids _ _ Hobj Hseeds H0 H1)
      as (seeded & ids1 & Hseed).
    destruct (IH ids1) as (others & ids2 & Hrest).
    exists (seeded :: others), ids2. cbn [seed_all].
    erewrite bind_return; [|exact Hseed].
    erewrite bind_return; [|exact Hrest]. reflexivity.
Qed.

(** The loop adds to the accumulators what [seed_all] seeds, object by
    object, and raises where [seed_all] raises. *)
Lemma for_each_loop_body tolerance grid_controls objs acc ids :
  for_each (loop_body tolerance grid_controls) objs acc ids
  = bind (seed_all tolerance grid_controls objs)
         (λ seeded, ret (accumulated seeded acc)) ids.
Proof.
  revert acc ids. induction objs as [|obj objs IH]; intros [[grid_pos grid_dir] data] ids.
  - cbn. unfold ret. now rewrite !app_nil_r.
  - cbn [for_each seed_all]. unfold loop_body at 1. unfold bind at 1 2 3 4.
    destruct (seed_object tolerance grid_controls obj ids) as [[[obj_name sens]|e] ids1];
      [|reflexivity].
    unfold ret at 1. rewrite IH. unfold bind.
    destruct (seed_all tolerance grid_controls objs ids1) as [[others|e] ids2];
      [|reflexivity].
    unfold ret, accumulated, accumulate. cbn [fst snd map concat].
    unfold sensors_of at 2 4. cbn [snd]. rewrite !map_app, <- !app_assoc.
    reflexivity.
Qed.

(** [import_grids] in one equation: the merged grid carries the sensors
    of the seeded grids, and the summary their rows. *)
Lemma import_grids_eq rhino3dm_file layer tolerance grid_controls child_layer ids :
  import_grids rhino3dm_file layer tolerance grid_controls child_layer ids
  = match seed_all tolerance (grid_controls_or_default grid_controls)
            (grid_objs_of rhino3dm_file layer child_layer) ids with
    | (Return seeded, ids') =>
        (Return ([{| SensorGrid.identifier := Layer.Name layer;
                     SensorGrid.sensors := concat (map sensors_of seeded) |}],
                 map summary_row seeded), ids')
    | (Raise e, ids') => (Raise e, ids')
    end.
Proof.
  unfold import_grids. unfold bind at 1. rewrite for_each_loop_body. unfold bind.
  destruct (seed_all _ _ _ ids) as [[seeded|e] ids']; [|reflexivity].
  unfold ret, accumulated. cbn [app].
  unfold SensorGrid.from_position_and_direction. now rewrite zip_with_sensor.
Qed.

(** What a returning [seed_object] went through. *)
Lemma seed_object_returns tolerance grid_controls obj ids obj_name sens ids' :
  seed_object tolerance grid_controls obj ids = (Return (obj_name, sens), ids') →
  isinstance_Mesh (File3dmObject.Geometry obj) = false
  ∧ ∃ faces spacing_x spacing_y,
      to_face3d obj tolerance = Return faces
      ∧ (obj_name, ids')
        = (if truthy_str (ObjectAttributes.Name (File3dmObject.Attributes obj))
           then (ObjectAttributes.Name (File3dmObject.Attributes obj), ids)
           else clean_and_id_string "Grid" ids)
      ∧ getitem grid_controls 0 = Return spacing_x
      ∧ getitem grid_controls 1 = Return spacing_y
      ∧ from_face3d (clean_string obj_name) faces spacing_x spacing_x spacing_y
        = Return sens.
Proof.
  unfold seed_object.
  destruct (isinstance_Mesh _); [discriminate|]. intros Hrun. split; [reflexivity|].
  apply bind_returns in Hrun as (faces & ids1 & Hfaces & Hrun).
  apply bind_returns in Hrun as (name & ids2 & Hname & Hrun).
  apply bind_returns in Hrun as (args & ids3 & Hargs & Hrun).
  apply bind_returns in Hrun as (seeded & ids4 & Hsens & Hrun).
  unfold lift in Hfaces, Hargs, Hsens. unfold ret in Hrun.
  injection Hfaces as Hfaces <-. injection Hargs as Hargs <-.
  injection Hsens as Hsens <-.
  injection Hrun as <- <- <-.
  unfold try_to_face3d in Hfaces.
  destruct (to_face3d obj tolerance) as [faces'|[]]; try discriminate.
  injection Hfaces as ->.
  unfold args_of in Hargs.
  destruct (getitem grid_controls 0) as [spacing_x|]; [|discriminate].
  destruct (getitem grid_controls 1) as [spacing_y|]; [|discriminate].
  injection Hargs as <-. cbn [from_face3d_star] in Hsens.
  exists faces, spacing_x, spacing_y. repeat split; [|exact Hsens].
  unfold obj_name_of in Hname.
  destruct (truthy_str _).
  - unfold ret in Hname. now injection Hname as <- <-.
  - destruct (clean_and_id_string "Grid" ids) as [fresh ids1']. now injection Hname as <- <-.
Qed.

Lemma loop_body_returns tolerance grid_controls obj acc ids acc' ids' :
  loop_body tolerance grid_controls obj acc ids = (Return acc', ids') →
  ∃ obj_name sens,
    seed_object tolerance grid_controls obj ids = (Return (obj_name, sens), ids')
    ∧ acc' = accumulate obj_name sens acc.
Proof.
  unfold loop_body. intros Hrun.
  apply bind_returns in Hrun as ([obj_name sens] & ids1 & Hseed & Hrun).
  unfold ret in Hrun. injection Hrun as <- <-. now exists obj_name, sens.
Qed.

Lemma seed_object_mesh tolerance grid_controls obj ids :
  isinstance_Mesh (File3dmObject.Geometry obj) = true →
  seed_object tolerance grid_controls obj ids
  = (Raise (ValueError "Mesh is not accepted."), ids).
Proof. intros Hmesh. unfold seed_object. now rewrite Hmesh. Qed.

Lemma seed_object_assertion tolerance grid_controls obj ids msg :
  isinstance_Mesh (File3dmObject.Geometry obj) = false →
  to_face3d obj tolerance = Raise (AssertionError msg) →
  seed_object tolerance grid_controls obj ids
  = (Raise (AssertionError (check_message obj)), ids).
Proof.
  intros Hkind Hfails. unfold seed_object. rewrite Hkind.
  apply bind_raise. unfold lift, try_to_face3d. now rewrite Hfails.
Qed.

(** An exception of [to_face3d] that is no [AssertionError] is not
    caught: it leaves [seed_object] as it is. *)
Lemma seed_object_uncaught tolerance grid_controls obj ids e :
  isinstance_Mesh (File3dmObject.Geometry obj) = false →
  to_face3d obj tolerance = Raise e →
  (∀ msg, e ≠ AssertionError msg) →
  seed_object tolerance grid_controls obj ids = (Raise e, ids).
Proof.
  intros Hkind Hfails Hother. unfold seed_object. rewrite Hkind.
  apply bind_raise. unfold lift, try_to_face3d. rewrite Hfails.
  destruct e as [msg|msg|msg|cls msg]; try reflexivity. now destruct (Hother msg).
Qed.

(** A raise of [seed_object] is the raise of the loop body. *)
Lemma loop_body_raises tolerance grid_controls obj acc ids e ids' :
  seed_object tolerance grid_controls obj ids = (Raise e, ids') →
  loop_body tolerance grid_controls obj acc ids = (Raise e, ids').
Proof. intros Hseed. unfold loop_body. now apply bind_raise. Qed.

(** The loop raises what its body raises at the object it has reached. *)
Lemma for_each_raises_at {S A B} (body : B → A → M S A) before x after acc0 s acc s1 e s2 :
  for_each body before acc0 s = (Return acc, s1) →
  body x acc s1 = (Raise e, s2) →
  for_each body (before ++ x :: after) acc0 s = (Raise e, s2).
Proof.
  intros Hbefore Hbody. rewrite for_each_app.
  erewrite bind_return; [|exact Hbefore].
  cbn [for_each]. now apply bind_raise.
Qed.

(** A loop over a list with an element at which the body always raises
    never returns. *)
Lemma for_each_never_returns {S A B} (body : B → A → M S A) x xs :
  In x xs →
  (∀ acc s, ∃ e s', body x acc s = (Raise e, s')) →
  ∀ acc s, ∃ e s', for_each body xs acc s = (Raise e, s').
Proof.
  intros Hin Hraises. induction xs as [|y xs IH]; [destruct Hin|].
  intros acc s. cbn [for_each]. unfold bind.
  destruct (body y acc s) as [[acc'|e] s1] eqn:Hy.
  - destruct Hin as [->|Hin].
    + destruct (Hraises acc s) as (e & s' & Hx). congruence.
    + apply (IH Hin).
  - now exists e, s1.
Qed.

(** [import_grids] raises what its loop raises. *)
Lemma import_grids_loop_raises rhino3dm_file layer tolerance grid_controls child_layer ids e ids' :
  for_each (loop_body tolerance (grid_controls_or_default grid_controls))
           (grid_objs_of rhino3dm_file layer child_layer) ([], [], []) ids
  = (Raise e, ids') →
  import_grids rhino3dm_file layer tolerance grid_controls child_layer ids = (Raise e, ids').
Proof. intros Hloop. unfold import_grids. now apply bind_raise. Qed.

Lemma sum_counts_summary (seeded : list (string * SensorGrid.t)) :
  sum_counts (map summary_row seeded)
  = Z.of_nat (length (concat (map sensors_of seeded))).
Proof.
  induction seeded as [|[obj_name sens] seeded IH]; [reflexivity|].
  cbn [map concat sum_counts foldr]. fold (sum_counts (map summary_row seeded)).
  rewrite IH, length_app, Nat2Z.inj_add. reflexivity.
Qed.

(** The i-th result of [seed_all] is the seeding of the i-th object. *)
Lemma seed_all_returns tolerance grid_controls objs ids seeded ids' :
  seed_all tolerance grid_controls objs ids = (Return seeded, ids') →
  Forall2 (λ obj result, ∃ i i', seed_object tolerance grid_controls obj i = (Return result, i'))
          objs seeded.
Proof.
  revert ids seeded. induction objs as [|obj objs IH]; intros ids seeded Hrun.
  - cbn in Hrun. unfold ret in Hrun. injection Hrun as <- <-. constructor.
  - cbn [seed_all] in Hrun.
    apply bind_returns in Hrun as (first & ids1 & Hfirst & Hrun).
    apply bind_returns in Hrun as (others & ids2 & Hothers & Hrun).
    unfold ret in Hrun. injection Hrun as <- <-.
    constructor; [now exists ids, ids1 | now apply (IH ids1)].
Qed.

Lemma check_message_includes_id obj :
  includes (ObjectAttributes.Id (File3dmObject.Attributes obj)) (check_message obj).
Proof. eexists "Please check object with ID: ", _. reflexivity. Qed.

Lemma check_message_includes_hint obj :
  includes "smaller grid size" (check_message obj).
Proof.
  exists ("Please check object with ID: "
          +:+ ObjectAttributes.Id (File3dmObject.Attributes obj)
          +:+ ". Either the object has faces too small for the grid size, or the"
          +:+ " object is not supported for grids. You should try again with a "),
         " in the config file.".
  unfold check_message. rewrite !append_assoc. reflexivity.
Qed.

(** C1, as amended.  For every model, layer and tolerance such that
    every enumerated object is non-mesh, converts successfully and is
    seeded successfully (the grid controls being unset or holding their
    two spacings), [import_grids] returns exactly one grid, identified by
    the name of the layer, together with one summary row per object; the
    number of points of the grid is the sum of the point counts of the
    rows.  Each row is the working name of its object with the number of
    sensors seeded for that object, and the grid holds these sensors. *)
Theorem import_grids_one_merged_grid
    (rhino3dm_file : File3dm) (layer : Layer.t) (tolerance : float)
    (grid_controls : controls) (child_layer : bool) (ids : IdState) :
  well_formed_controls grid_controls →
  Forall (convertible tolerance) (grid_objs_of rhino3dm_file layer child_layer) →
  Forall (seeds tolerance (grid_controls_or_default grid_controls))
         (grid_objs_of rhino3dm_file layer child_layer) →
  ∃ grid data ids' seeded,
    import_grids rhino3dm_file layer tolerance grid_controls child_layer ids
    = (Return ([grid], data), ids')
    ∧ SensorGrid.identifier grid = Layer.Name layer
    ∧ SensorGrid.len grid = sum_counts data
    ∧ length data = length (grid_objs_of rhino3dm_file layer child_layer)
    ∧ Forall2 (λ obj result,
                 ∃ i i', seed_object tolerance (grid_controls_or_default grid_controls) obj i
                         = (Return result, i'))
              (grid_objs_of rhino3dm_file layer child_layer) seeded
    ∧ data = map summary_row seeded
    ∧ SensorGrid.sensors grid = concat (map sensors_of seeded).
Proof.
  intros Hcontrols Hall Hseeds.
  destruct (well_formed_getitem grid_controls Hcontrols) as (x & y & H0 & H1).
  destruct (seed_all_convertible tolerance _ _ ids x y
              (proj2 (Forall_and _ _) (conj Hall Hseeds)) H0 H1)
    as (seeded & ids' & Hseeded).
  rewrite import_grids_eq, Hseeded.
  eexists _, _, ids', seeded. split; [reflexivity|]. cbn [SensorGrid.identifier].
  pose proof (seed_all_returns _ _ _ _ _ _ Hseeded) as Heach.
  split; [reflexivity|]. split; [|split; [|split; [exact Heach | now split]]].
  - unfold SensorGrid.len. cbn [SensorGrid.sensors]. now rewrite sum_counts_summary.
  - rewrite length_map. symmetry. apply (Forall2_length _ _ _ Heach).
Qed.

(** C2. For every enumerated object whose geometry is a mesh,
    [import_grids] returns nothing, neither a grid nor summary rows: the
    call ends in a raise.  When the loop comes to the object, the objects
    before it having gone through, the exception is the [ValueError] of
    line 82, raised before anything is done with the object. *)
Theorem import_grids_rejects_mesh
    (rhino3dm_file : File3dm) (layer : Layer.t) (tolerance : float)
    (grid_controls : controls) (child_layer : bool) (ids : IdState)
    (obj : File3dmObject.t) :
  In obj (grid_objs_of rhino3dm_file layer child_layer) →
  isinstance_Mesh (File3dmObject.Geometry obj) = true →
  (∃ e, fst (import_grids rhino3dm_file layer tolerance grid_controls child_layer ids)
        = Raise e)
  ∧ (loop_reaches tolerance (grid_controls_or_default grid_controls)
                  (grid_objs_of rhino3dm_file layer child_layer) obj ids →
     fst (import_grids rhino3dm_file layer tolerance grid_controls child_layer ids)
     = Raise (ValueError "Mesh is not accepted."))
  ∧ (∀ acc ids0,
       loop_body tolerance (grid_controls_or_default grid_controls) obj acc ids0
       = (Raise (ValueError "Mesh is not accepted."), ids0)).
Proof.
  intros Hin Hmesh.
  assert (Hbody : ∀ acc ids0,
             loop_body tolerance (grid_controls_or_default grid_controls) obj acc ids0
             = (Raise (ValueError "Mesh is not accepted."), ids0)).
  { intros acc ids0. apply loop_body_raises. now apply seed_object_mesh. }
  repeat split; [| |exact Hbody].
  - destruct (for_each_never_returns _ obj _ Hin
                (λ acc s, ex_intro _ _ (ex_intro _ s (Hbody acc s))) ([], [], []) ids)
      as (e & ids' & Hloop).
    exists e. now rewrite (import_grids_loop_raises _ _ _ _ _ _ _ _ Hloop).
  - intros (before & after & acc & ids1 & Hsplit & Hbefore).
    erewrite import_grids_loop_raises; [reflexivity|].
    rewrite Hsplit. eapply for_each_raises_at; [exact Hbefore | apply Hbody].
Qed.

(** C3. For every enumerated non-mesh object for which [to_face3d]
    fails its assertion at the supplied tolerance, [import_grids] returns
    nothing: the call ends in a raise.  When the loop comes to the
    object, the exception is the [AssertionError] of line 90, whose
    message includes the identifier of the object and the advice to try a
    smaller grid size. *)
Theorem import_grids_conversion_failure
    (rhino3dm_file : File3dm) (layer : Layer.t) (tolerance : float)
    (grid_controls : controls) (child_layer : bool) (ids : IdState)
    (obj : File3dmObject.t) (msg : string) :
  In obj (grid_objs_of rhino3dm_file layer child_layer) →
  isinstance_Mesh (File3dmObject.Geometry obj) = false →
  to_face3d obj tolerance = Raise (AssertionError msg) →
  (∃ e, fst (import_grids rhino3dm_file layer tolerance grid_controls child_layer ids)
        = Raise e)
  ∧ (loop_reaches tolerance (grid_controls_or_default grid_controls)
                  (grid_objs_of rhino3dm_file layer child_layer) obj ids →
     fst (import_grids rhino3dm_file layer tolerance grid_controls child_layer ids)
     = Raise (AssertionError (check_message obj)))
  ∧ includes (ObjectAttributes.Id (File3dmObject.Attributes obj)) (check_message obj)
  ∧ includes "smaller grid size" (check_message obj).
Proof.
  intros Hin Hkind Hfails.
  assert (Hbody : ∀ acc ids0,
             loop_body tolerance (grid_controls_or_default grid_controls) obj acc ids0
             = (Raise (AssertionError (check_message obj)), ids0)).
  { intros acc ids0. apply loop_body_raises. now apply seed_object_assertion with msg. }
  split; [|split; [|split]].
  - destruct (for_each_never_returns _ obj _ Hin
                (λ acc s, ex_intro _ _ (ex_intro _ s (Hbody acc s))) ([], [], []) ids)
      as (e & ids' & Hloop).
    exists e. now rewrite (import_grids_loop_raises _ _ _ _ _ _ _ _ Hloop).
  - intros (before & after & acc & ids1 & Hsplit & Hbefore).
    erewrite import_grids_loop_raises; [reflexivity|].
    rewrite Hsplit. eapply for_each_raises_at; [exact Hbefore | apply Hbody].
  - apply check_message_includes_id.
  - apply check_message_includes_hint.
Qed.

(** C4, as amended.  For every object that an iteration of the loop
    processes without a raise, the working name is the stored name when
    that is non-empty and otherwise the identifier that
    [clean_and_id_string('Grid')] generates at that moment; the sanitized
    form [clean_string(obj_name)] of the working name is the identifier
    under which the object is seeded; and the iteration appends to the
    summary the row of the working name itself, not sanitized, with the
    number of seeded points. *)
Theorem loop_body_summary_row
    (tolerance : float) (grid_controls : controls) (obj : File3dmObject.t)
    (acc acc' : accumulators) (ids ids' : IdState) :
  loop_body tolerance grid_controls obj acc ids = (Return acc', ids') →
  ∃ obj_name sens,
    (obj_name, ids')
    = (if truthy_str (ObjectAttributes.Name (File3dmObject.Attributes obj))
       then (ObjectAttributes.Name (File3dmObject.Attributes obj), ids)
       else clean_and_id_string "Grid" ids)
    ∧ (∃ faces x_dim y_dim offset,
         to_face3d obj tolerance = Return faces
         ∧ from_face3d (clean_string obj_name) faces x_dim y_dim offset = Return sens)
    ∧ snd acc' = snd acc ++ [[Str obj_name; Int (SensorGrid.len sens)]].
Proof.
  intros Hrun.
  apply loop_body_returns in Hrun as (obj_name & sens & Hseed & ->).
  apply seed_object_returns in Hseed as (_ & faces & x & y & Hfaces & Hname & _ & _ & Hsens).
  exists obj_name, sens. split; [exact Hname|]. split.
  - now exists faces, x, x, y.
  - now destruct acc as [[grid_pos grid_dir] data].
Qed.

(** C5. For every object that an iteration of the loop processes without
    a raise, the seeding constructor is called on the list [args] whose
    last three elements are [grid_controls[0]], [grid_controls[0]] and
    [grid_controls[1]], in this order: the x spacing twice, and the y
    spacing in the third place.  The accumulators grow by the grid seeded
    with these arguments. *)
Theorem loop_body_seeding_arguments
    (tolerance : float) (grid_controls : controls) (obj : File3dmObject.t)
    (acc acc' : accumulators) (ids ids' : IdState) :
  loop_body tolerance grid_controls obj acc ids = (Return acc', ids') →
  ∃ obj_name faces spacing_x spacing_y sens,
    getitem grid_controls 0 = Return spacing_x
    ∧ getitem grid_controls 1 = Return spacing_y
    ∧ to_face3d obj tolerance = Return faces
    ∧ args_of obj_name faces grid_controls
      = Return (clean_string obj_name, faces, spacing_x, spacing_x, spacing_y)
    ∧ from_face3d (clean_string obj_name) faces spacing_x spacing_x spacing_y
      = Return sens
    ∧ acc' = accumulate obj_name sens acc.
Proof.
  intros Hrun.
  apply loop_body_returns in Hrun as (obj_name & sens & Hseed & ->).
  apply seed_object_returns in Hseed as (_ & faces & x & y & Hfaces & _ & H0 & H1 & Hsens).
  exists obj_name, faces, x, y, sens. repeat split; try assumption.
  unfold args_of. now rewrite H0, H1.
Qed.

(** C6. For every call of [import_grids] that returns, the points of the
    merged grid are the points seeded for the first enumerated object,
    then those seeded for the second, and so on to the last: the
    concatenation of the per-object point lists in the order of the
    enumeration, each list in its seeded order.  The same holds of the
    sensors as a whole. *)
Theorem import_grids_point_order
    (rhino3dm_file : File3dm) (layer : Layer.t) (tolerance : float)
    (grid_controls : controls) (child_layer : bool) (ids ids' : IdState)
    (hb_grids : list SensorGrid.t) (data : list row) :
  import_grids rhino3dm_file layer tolerance grid_controls child_layer ids
  = (Return (hb_grids, data), ids') →
  ∃ grid seeded,
    hb_grids = [grid]
    ∧ Forall2 (λ obj result,
                 ∃ i i', seed_object tolerance (grid_controls_or_default grid_controls) obj i
                         = (Return result, i'))
              (grid_objs_of rhino3dm_file layer child_layer) seeded
    ∧ map Sensor.pos (SensorGrid.sensors grid)
      = concat (map (λ result, map Sensor.pos (sensors_of result)) seeded)
    ∧ SensorGrid.sensors grid = concat (map sensors_of seeded).
Proof.
  rewrite import_grids_eq.
  destruct (seed_all _ _ _ ids) as [[seeded|e] ids1] eqn:Hseeded; [|discriminate].
  intros [= <- <- <-].
  eexists _, seeded. split; [reflexivity|]. split; [|split].
  - exact (seed_all_returns _ _ _ _ _ _ Hseeded).
  - cbn [SensorGrid.sensors]. rewrite concat_map, map_map. reflexivity.
  - reflexivity.
Qed.

(** C9. When the enumeration yields no object, [import_grids] does not
    raise: it returns a list with the single grid of the layer, which
    has no points, and an empty summary. *)
Theorem import_grids_no_objects
    (rhino3dm_file : File3dm) (layer : Layer.t) (tolerance : float)
    (grid_controls : controls) (child_layer : bool) (ids : IdState) :
  grid_objs_of rhino3dm_file layer child_layer = [] →
  ∃ grid,
    import_grids rhino3dm_file layer tolerance grid_controls child_layer ids
    = (Return ([grid], []), ids)
    ∧ SensorGrid.identifier grid = Layer.Name layer
    ∧ SensorGrid.sensors grid = []
    ∧ SensorGrid.len grid = 0%Z.
Proof.
  intros Hnone. unfold import_grids. rewrite Hnone. cbn.
  eexists. split; [reflexivity|]. now repeat split.
Qed.

(** C10. Every falsy [grid_controls], [None] as well as an empty tuple
    or an empty list, is replaced by [(1.0, 1.0, 0.0)] before the loop:
    the call is the call with [grid_controls=(1.0, 1.0, 0.0)] on the same
    model, layer, tolerance and [child_layer] flag. *)
Theorem import_grids_falsy_controls
    (rhino3dm_file : File3dm) (layer : Layer.t) (tolerance : float)
    (grid_controls : controls) (child_layer : bool) :
  truthy_controls grid_controls = false →
  grid_controls_or_default grid_controls = CTuple [1.0; 1.0; 0.0]%float
  ∧ import_grids rhino3dm_file layer tolerance grid_controls child_layer
    = import_grids rhino3dm_file layer tolerance (CTuple [1.0; 1.0; 0.0]%float) child_layer.
Proof.
  intros Hfalsy. unfold import_grids, grid_controls_or_default.
  rewrite Hfalsy. now cbn.
Qed.

End GridFacts.

(** ** The properties at work on the concrete collaborators *)

Section Runs.
Import Demo.

Example run_good_file :
  import_grids good_file grid_layer 0.5%float CNone false 0
  = (Return ([SensorGrid.Build_t "grid" (repeat (seeded_sensor 1 1 1) 5)],
             [[Str "my grid"; Int 2]; [Str "Grid_0"; Int 3]]), 1).
Proof. reflexivity. Qed.

(** With a single spacing the first processed object raises. *)
Example run_short_controls :
  fst (import_grids good_file grid_layer 0.5%float (CTuple [2]%float) false 0)
  = Raise (IndexError "tuple index out of range").
Proof. reflexivity. Qed.

(** Without a folder the report goes to the working directory. *)
Example run_report_here :
  write_csv (report None) no_files
  = (Return tt, with_file no_files "report.csv" ("A,3" +:+ crlf +:+ "B,5" +:+ crlf)).
Proof. reflexivity. Qed.

Example run_report :
  files (snd (write_csv (report (Some "out")) with_out_dir)) !! "out/report.csv"
  = Some ("A,3" +:+ crlf +:+ "B,5" +:+ crlf).
Proof. vm_compute. reflexivity. Qed.

(** C1, as amended, on the two floors of [good_file]. *)
Lemma import_grids_one_merged_grid_witness :
  well_formed_controls CNone
  ∧ Forall (convertible 0.5%float) (grid_objs_of good_file grid_layer false)
  ∧ Forall (seeds 0.5%float (grid_controls_or_default CNone))
           (grid_objs_of good_file grid_layer false)
  ∧ ∃ grid data ids' seeded,
      import_grids good_file grid_layer 0.5%float CNone false 0
      = (Return ([grid], data), ids')
      ∧ SensorGrid.identifier grid = Layer.Name grid_layer
      ∧ SensorGrid.len grid = sum_counts data
      ∧ length data = length (grid_objs_of good_file grid_layer false)
      ∧ Forall2 (λ obj result,
                   ∃ i i', seed_object 0.5%float (grid_controls_or_default CNone) obj i
                           = (Return result, i'))
                (grid_objs_of good_file grid_layer false) seeded
      ∧ data = map summary_row seeded
      ∧ SensorGrid.sensors grid = concat (map sensors_of seeded).
Proof.
  assert (Hcontrols : well_formed_controls CNone) by (left; reflexivity).
  assert (Hall : Forall (convertible 0.5%float) (grid_objs_of good_file grid_layer false)).
  { repeat constructor; eexists; reflexivity. }
  assert (Hseeds : Forall (seeds 0.5%float (grid_controls_or_default CNone))
                          (grid_objs_of good_file grid_layer false)).
  { repeat constructor; intros faces x y obj_name [= <-] [= <-] [= <-] _;
      eexists; reflexivity. }
  exact (conj Hcontrols (conj Hall (conj Hseeds
           (import_grids_one_merged_grid good_file grid_layer 0.5%float CNone false 0
              Hcontrols Hall Hseeds)))).
Defined.

(** The claim C1 as it stands fails where the seeding raises, which
    line 102 does not catch.  The two floors of [good_file] are no meshes
    and convert, yet with spacings of zero the call ends in the
    [ZeroDivisionError] of the seeding; the curve of [curve_file] is no
    mesh and converts, to no face at all, and the call ends in the
    [AssertionError] of the seeding. *)
Lemma seeding_raises_after_conversion :
  well_formed_controls (CTuple [0; 0; 0]%float)
  ∧ Forall (convertible 0.5%float) (grid_objs_of good_file grid_layer false)
  ∧ fst (import_grids good_file grid_layer 0.5%float (CTuple [0; 0; 0]%float) false 0)
    = Raise (OtherError "ZeroDivisionError" "float division by zero")
  ∧ Forall (convertible 0.5%float) (grid_objs_of curve_file grid_layer false)
  ∧ fst (import_grids curve_file grid_layer 0.5%float CNone false 0)
    = Raise (AssertionError "No sensors for the grid.").
Proof.
  split; [right; now exists 0%float, 0%float, [0%float]|].
  split; [repeat constructor; eexists; reflexivity|].
  split; [reflexivity|].
  split; [repeat constructor; eexists; reflexivity | reflexivity].
Qed.

(** C2 on [mesh_file], whose second object is a mesh. *)
Lemma import_grids_rejects_mesh_witness :
  In a_mesh (grid_objs_of mesh_file grid_layer false)
  ∧ isinstance_Mesh (File3dmObject.Geometry a_mesh) = true
  ∧ loop_reaches 0.5%float (grid_controls_or_default CNone)
                 (grid_objs_of mesh_file grid_layer false) a_mesh 0
  ∧ fst (import_grids mesh_file grid_layer 0.5%float CNone false 0)
    = Raise (ValueError "Mesh is not accepted.").
Proof.
  assert (Hin : In a_mesh (grid_objs_of mesh_file grid_layer false))
    by (right; left; reflexivity).
  assert (Hmesh : isinstance_Mesh (File3dmObject.Geometry a_mesh) = true) by reflexivity.
  assert (Hreach : loop_reaches 0.5%float (grid_controls_or_default CNone)
                     (grid_objs_of mesh_file grid_layer false) a_mesh 0).
  { exists [floor_a], [floor_b]. eexists _, _. split; reflexivity. }
  exact (conj Hin (conj Hmesh (conj Hreach
           (proj1 (proj2 (import_grids_rejects_mesh mesh_file grid_layer 0.5%float CNone
                            false 0 a_mesh Hin Hmesh)) Hreach)))).
Defined.

(** C3, as amended, on [sliver_file], whose second object fails the
    assertion of [to_face3d]. *)
Lemma import_grids_conversion_failure_witness :
  In a_sliver (grid_objs_of sliver_file grid_layer false)
  ∧ isinstance_Mesh (File3dmObject.Geometry a_sliver) = false
  ∧ to_face3d a_sliver 0.5%float
    = Raise (AssertionError "Face3D must have at least 3 vertices.")
  ∧ loop_reaches 0.5%float (grid_controls_or_default CNone)
                 (grid_objs_of sliver_file grid_layer false) a_sliver 0
  ∧ fst (import_grids sliver_file grid_layer 0.5%float CNone false 0)
    = Raise (AssertionError (check_message a_sliver))
  ∧ includes "id-s" (check_message a_sliver).
Proof.
  assert (Hin : In a_sliver (grid_objs_of sliver_file grid_layer false))
    by (right; left; reflexivity).
  assert (Hkind : isinstance_Mesh (File3dmObject.Geometry a_sliver) = false) by reflexivity.
  assert (Hfails : to_face3d a_sliver 0.5%float
                   = Raise (AssertionError "Face3D must have at least 3 vertices."))
    by reflexivity.
  assert (Hreach : loop_reaches 0.5%float (grid_controls_or_default CNone)
                     (grid_objs_of sliver_file grid_layer false) a_sliver 0).
  { exists [floor_a], [a_mesh]. eexists _, _. split; reflexivity. }
  pose proof (import_grids_conversion_failure sliver_file grid_layer 0.5%float CNone
                false 0 a_sliver _ Hin Hkind Hfails) as (_ & Hraise & Hid & _).
  exact (conj Hin (conj Hkind (conj Hfails (conj Hreach (conj (Hraise Hreach) Hid))))).
Defined.

(** The claim C3 as it stands fails where the conversion fails with an
    exception that is no [AssertionError]: the handler of line 89 does
    not catch it.  The point of [point_file] is no mesh, the loop comes
    to it, its conversion raises an [AttributeError], and that exception
    leaves the call as it is, with a message that names neither the
    object nor the grid size. *)
Lemma conversion_failure_uncaught :
  In a_point (grid_objs_of point_file grid_layer false)
  ∧ isinstance_Mesh (File3dmObject.Geometry a_point) = false
  ∧ to_face3d a_point 0.5%float
    = Raise (OtherError "AttributeError" "object has no attribute Faces")
  ∧ loop_reaches 0.5%float (grid_controls_or_default CNone)
                 (grid_objs_of point_file grid_layer false) a_point 0
  ∧ fst (import_grids point_file grid_layer 0.5%float CNone false 0)
    = Raise (OtherError "AttributeError" "object has no attribute Faces")
  ∧ fst (import_grids point_file grid_layer 0.5%float CNone false 0)
    ≠ Raise (AssertionError (check_message a_point)).
Proof.
  split; [right; left; reflexivity|]. split; [reflexivity|]. split; [reflexivity|].
  split; [exists [floor_a], []; eexists _, _; split; reflexivity|].
  split; [reflexivity | discriminate].
Qed.

(** C4, as amended, on the unnamed floor: the generator names it. *)
Lemma loop_body_summary_row_witness :
  ∃ acc' ids',
    loop_body 0.5%float (CTuple [2; 3; 4]%float) floor_b ([], [], []) 0 = (Return acc', ids')
    ∧ ∃ obj_name sens,
        (obj_name, ids') = ("Grid_0", 1)
        ∧ (∃ faces x_dim y_dim offset,
             to_face3d floor_b 0.5%float = Return faces
             ∧ from_face3d (clean_string obj_name) faces x_dim y_dim offset = Return sens)
        ∧ snd acc' = [] ++ [[Str obj_name; Int (SensorGrid.len sens)]].
Proof.
  eexists _, _.
  refine ((λ Hrun, conj Hrun
             (loop_body_summary_row 0.5%float (CTuple [2; 3; 4]%float) floor_b
                ([], [], []) _ 0 _ Hrun)) _).
  reflexivity.
Defined.

(** The claim C4 as it stands fails on the floor stored under the name
    [my grid]: the row of the summary keeps the stored name, while the
    sanitized name, under which the floor is seeded, has lost the space. *)
Lemma summary_row_not_sanitized :
  ObjectAttributes.Name (File3dmObject.Attributes floor_a) = "my grid"
  ∧ grid_objs_of good_file grid_layer false = [floor_a; floor_b]
  ∧ fst (import_grids good_file grid_layer 0.5%float CNone false 0)
    = Return ([SensorGrid.Build_t "grid" (repeat (seeded_sensor 1 1 1) 5)],
              [[Str "my grid"; Int 2]; [Str "Grid_0"; Int 3]])
  ∧ clean_string "my grid" = "my_grid"
  ∧ [Str "my grid"; Int 2] ≠ [Str (clean_string "my grid"); Int 2].
Proof. repeat split; try reflexivity. discriminate. Qed.

(** C5 on the named floor, with the controls [(2.0, 3.0, 4.0)]. *)
Lemma loop_body_seeding_arguments_witness :
  ∃ acc' ids',
    loop_body 0.5%float (CTuple [2; 3; 4]%float) floor_a ([], [], []) 0 = (Return acc', ids')
    ∧ ∃ obj_name faces spacing_x spacing_y sens,
        getitem (CTuple [2; 3; 4]%float) 0 = Return spacing_x
        ∧ getitem (CTuple [2; 3; 4]%float) 1 = Return spacing_y
        ∧ to_face3d floor_a 0.5%float = Return faces
        ∧ args_of obj_name faces (CTuple [2; 3; 4]%float)
          = Return (clean_string obj_name, faces, spacing_x, spacing_x, spacing_y)
        ∧ from_face3d (clean_string obj_name) faces spacing_x spacing_x spacing_y
          = Return sens
        ∧ acc' = accumulate obj_name sens ([], [], []).
Proof.
  eexists _, _.
  refine ((λ Hrun, conj Hrun
             (loop_body_seeding_arguments 0.5%float (CTuple [2; 3; 4]%float) floor_a
                ([], [], []) _ 0 _ Hrun)) _).
  reflexivity.
Defined.

(** C6 on [good_file]. *)
Lemma import_grids_point_order_witness :
  ∃ hb_grids data ids',
    import_grids good_file grid_layer 0.5%float CNone false 0
    = (Return (hb_grids, data), ids')
    ∧ ∃ grid seeded,
        hb_grids = [grid]
        ∧ Forall2 (λ obj result,
                     ∃ i i', seed_object 0.5%float (grid_controls_or_default CNone) obj i
                             = (Return result, i'))
                  (grid_objs_of good_file grid_layer false) seeded
        ∧ map Sensor.pos (SensorGrid.sensors grid)
          = concat (map (λ result, map Sensor.pos (sensors_of result)) seeded)
        ∧ SensorGrid.sensors grid = concat (map sensors_of seeded).
Proof.
  eexists _, _, _.
  refine ((λ Hrun, conj Hrun
             (import_grids_point_order good_file grid_layer 0.5%float CNone false 0 _ _ _
                Hrun)) _).
  reflexivity.
Defined.



(** C8, as amended, on a folder that is not there. *)
Lemma write_csv_missing_folder_witness :
  DataWriter.target_folder (report (Some "elsewhere")) = Some "elsewhere"
  ∧ "elsewhere" ≠ ""
  ∧ path_exists with_out_dir "elsewhere" = false
  ∧ write_csv (report (Some "elsewhere")) with_out_dir
    = (Raise (ValueError "Target foldder is not a valid path."), with_out_dir).
Proof.
  assert (Hne : "elsewhere" ≠ "") by discriminate.
  assert (Hmissing : path_exists with_out_dir "elsewhere" = false)
    by (vm_compute; reflexivity).
  exact (conj eq_refl (conj Hne (conj Hmissing
           (write_csv_missing_folder (report (Some "elsewhere")) "elsewhere" with_out_dir
              eq_refl Hne Hmissing)))).
Defined.

(** The claim C8 as it stands fails on the empty string: it is a target
    folder that does not exist as a path, yet the call returns and has
    written [report.csv] in the working directory. *)
Lemma write_csv_empty_folder_returns :
  DataWriter.target_folder (report (Some "")) = Some ""
  ∧ path_exists no_files "" = false
  ∧ fst (write_csv (report (Some "")) no_files) = Return tt
  ∧ files (snd (write_csv (report (Some "")) no_files)) !! "report.csv"
    = Some ("A,3" +:+ crlf +:+ "B,5" +:+ crlf)
  ∧ files no_files !! "report.csv" = None.
Proof. repeat split; vm_compute; reflexivity. Qed.

(** C9 on a layer without objects. *)
Lemma import_grids_no_objects_witness :
  grid_objs_of good_file empty_layer false = []
  ∧ ∃ grid,
      import_grids good_file empty_layer 0.5%float (CTuple [2]%float) false 0
      = (Return ([grid], []), 0)
      ∧ SensorGrid.identifier grid = Layer.Name empty_layer
      ∧ SensorGrid.sensors grid = []
      ∧ SensorGrid.len grid = 0%Z.
Proof.
  exact (conj eq_refl
           (import_grids_no_objects good_file empty_layer 0.5%float (CTuple [2]%float)
              false 0 eq_refl)).
Defined.

(** C10 on the empty list. *)
Lemma import_grids_falsy_controls_witness :
  truthy_controls (CList []) = false
  ∧ grid_controls_or_default (CList []) = CTuple [1.0; 1.0; 0.0]%float
  ∧ import_grids good_file grid_layer 0.5%float (CList []) false
    = import_grids good_file grid_layer 0.5%float (CTuple [1.0; 1.0; 0.0]%float) false.
Proof.
  exact (conj eq_refl
           (import_grids_falsy_controls good_file grid_layer 0.5%float (CList []) false
              eq_refl)).
Defined.

End Runs.

(** * Further properties of [write_csv] *)


(** Writing a file removes no path. *)
Lemma path_exists_with_file fs path text p :
  path_exists fs p = true → path_exists (with_file fs path text) p = true.
Proof.
  unfold path_exists, with_file. cbn [files dirs].
  rewrite !orb_true_iff, !bool_decide_eq_true. intros [Hdir|Hfile]; [now left|right].
  destruct (decide (path = p)) as [->|Hne].
  - rewrite lookup_insert_eq. now eexists.
  - now rewrite lookup_insert_ne.
Qed.

Section WriterFurther.
Context `{Py : Stdlib_py}.

(** The two ways through lines 22-30. *)
Lemma file_name_of_cases self fs :
  (truthy_opt_str (DataWriter.target_folder self) = true
   ∧ path_exists fs (default "" (DataWriter.target_folder self)) = false
   ∧ file_name_of self fs = (Raise (ValueError "Target foldder is not a valid path."), fs))
  ∨ ((truthy_opt_str (DataWriter.target_folder self) = true →
      path_exists fs (default "" (DataWriter.target_folder self)) = true)
     ∧ file_name_of self fs
       = (Return (chosen_path (DataWriter.name self) (DataWriter.target_folder self)), fs)).
Proof.
  unfold file_name_of, chosen_path.
  destruct (truthy_opt_str (DataWriter.target_folder self)) eqn:Hgiven.
  - erewrite bind_return; [|apply os_path_exists_eq].
    destruct (path_exists fs _) eqn:Hthere; cbn [negb].
    + right. now split.
    + left. now repeat split.
  - right. split; [discriminate | reflexivity].
Qed.

(** The three ways through [write_csv]: the folder is missing, the
    file cannot be opened, or the rows are written. *)
Lemma write_csv_cases self fs :
  (truthy_opt_str (DataWriter.target_folder self) = true
   ∧ path_exists fs (default "" (DataWriter.target_folder self)) = false
   ∧ write_csv self fs = (Raise (ValueError "Target foldder is not a valid path."), fs))
  ∨ ((truthy_opt_str (DataWriter.target_folder self) = true →
      path_exists fs (default "" (DataWriter.target_folder self)) = true)
     ∧ ((∃ e, open_error fs (chosen_path (DataWriter.name self)
                                          (DataWriter.target_folder self)) = Some e
              ∧ write_csv self fs = (Raise e, fs))
        ∨ (open_error fs (chosen_path (DataWriter.name self)
                                      (DataWriter.target_folder self)) = None
           ∧ write_csv self fs
             = (Return tt,
                with_file fs (chosen_path (DataWriter.name self)
                                          (DataWriter.target_folder self))
                  (csv_text (DataWriter.data self)))))).
Proof.
  destruct (file_name_of_cases self fs) as [(Hgiven & Hmissing & Hname) | (Hthere & Hname)].
  - left. repeat split; try assumption. unfold write_csv. now apply bind_raise.
  - right. split; [exact Hthere|].
    destruct (open_error fs (chosen_path (DataWriter.name self)
                                         (DataWriter.target_folder self)))
      as [e|] eqn:Hopen.
    + left. exists e. split; [reflexivity|]. now apply (write_csv_open_fails self fs _ e Hname).
    + right. split; [reflexivity|]. now apply write_csv_with_file_name.
Qed.



(** X3. [write_csv] changes at most one file: the directories stay as
    they are, every path that existed still exists, and there is a path
    such that every other file keeps its content. *)
Theorem write_csv_touches_one_file (self : DataWriter.t) (fs : filesystem) :
  dirs (snd (write_csv self fs)) = dirs fs
  ∧ (∀ p, path_exists fs p = true → path_exists (snd (write_csv self fs)) p = true)
  ∧ ∃ path, ∀ p, p ≠ path → files (snd (write_csv self fs)) !! p = files fs !! p.
Proof.
  destruct (write_csv_cases self fs)
    as [(_ & _ & Hrun) | (_ & [(e & _ & Hrun) | (_ & Hrun)])];
    rewrite Hrun; cbn [snd].
  - repeat split; try done. now exists "".
  - repeat split; try done. now exists "".
  - split; [reflexivity|]. split; [intros p; apply path_exists_with_file|].
    exists (chosen_path (DataWriter.name self) (DataWriter.target_folder self)).
    intros p Hne. unfold with_file. cbn [files]. apply lookup_insert_ne. congruence.
Qed.

(** X4. With no rows a returning [write_csv] still opens its file: the
    target exists afterwards and is empty, whatever it held before. *)
Theorem write_csv_no_rows
    (name : string) (target_folder : option string) (fs : filesystem) :
  fst (write_csv (DataWriter.Build_t name [] target_folder) fs) = Return tt →
  ∃ path,
    snd (write_csv (DataWriter.Build_t name [] target_folder) fs) = with_file fs path ""
    ∧ files (snd (write_csv (DataWriter.Build_t name [] target_folder) fs)) !! path = Some ""
    ∧ path_exists (snd (write_csv (DataWriter.Build_t name [] target_folder) fs)) path = true.
Proof.
  destruct (write_csv_cases (DataWriter.Build_t name [] target_folder) fs)
    as [(_ & _ & Hrun) | (_ & [(e & _ & Hrun) | (_ & Hrun)])];
    rewrite Hrun; cbn [fst snd]; [discriminate | discriminate |].
  intros _. eexists. split; [reflexivity|].
  unfold with_file, path_exists. cbn [files dirs DataWriter.data csv_text foldr].
  rewrite lookup_insert_eq. split; [reflexivity|].
  rewrite orb_true_iff, !bool_decide_eq_true. right. now eexists.
Qed.

End WriterFurther.

(** * Further properties of [import_grids] *)

Lemma sum_counts_app (rows rows' : list row) :
  sum_counts (rows ++ rows') = (sum_counts rows + sum_counts rows')%Z.
Proof.
  induction rows as [|r rows IH]; [reflexivity|].
  cbn [app sum_counts foldr]. fold (sum_counts (rows ++ rows')). fold (sum_counts rows).
  rewrite IH. apply Z.add_assoc.
Qed.

(** A loop that raises does so in its body, at one of its elements. *)
Lemma for_each_raises_inv {S A B} (body : B → A → M S A) xs acc s e s' :
  for_each body xs acc s = (Raise e, s') →
  ∃ x acc0 s0, In x xs ∧ body x acc0 s0 = (Raise e, s').
Proof.
  revert acc s. induction xs as [|x xs IH]; intros acc s; cbn [for_each].
  - unfold ret. discriminate.
  - unfold bind. destruct (body x acc s) as [[acc1|e1] s1] eqn:Hbody.
    + intros Hrest. destruct (IH _ _ Hrest) as (y & acc0 & s0 & Hin & Hy).
      exists y, acc0, s0. split; [now right | exact Hy].
    + intros [= <- <-]. exists x, acc, s. split; [now left | exact Hbody].
Qed.

Section GridFurther.
Context `{Sv : Services}.

(** [import_grids] raises only in its loop. *)
Lemma import_grids_raises_inv rhino3dm_file layer tolerance grid_controls child_layer ids e ids' :
  import_grids rhino3dm_file layer tolerance grid_controls child_layer ids = (Raise e, ids') →
  for_each (loop_body tolerance (grid_controls_or_default grid_controls))
           (grid_objs_of rhino3dm_file layer child_layer) ([], [], []) ids
  = (Raise e, ids').
Proof.
  unfold import_grids, bind.
  destruct (for_each _ _ _ ids) as [[[[grid_pos grid_dir] data]|e1] ids1].
  - unfold ret. discriminate.
  - now intros [= <- <-].
Qed.

(** Why [seed_object] raised. *)
Lemma seed_object_raises_inv tolerance grid_controls obj ids e ids' :
  seed_object tolerance grid_controls obj ids = (Raise e, ids') →
  (isinstance_Mesh (File3dmObject.Geometry obj) = true
   ∧ e = ValueError "Mesh is not accepted.")
  ∨ (isinstance_Mesh (File3dmObject.Geometry obj) = false
     ∧ ((∃ msg, to_face3d obj tolerance = Raise (AssertionError msg))
        ∧ e = AssertionError (check_message obj)
        ∨ to_face3d obj tolerance = Raise e ∧ (∀ msg, e ≠ AssertionError msg)
        ∨ (∃ faces, to_face3d obj tolerance = Return faces)
          ∧ (getitem grid_controls 0 = Raise e
             ∨ getitem grid_controls 1 = Raise e)
        ∨ (∃ faces spacing_x spacing_y obj_name,
             to_face3d obj tolerance = Return faces
             ∧ getitem grid_controls 0 = Return spacing_x
             ∧ getitem grid_controls 1 = Return spacing_y
             ∧ from_face3d (clean_string obj_name) faces spacing_x spacing_x spacing_y
               = Raise e))).
Proof.
  unfold seed_object. destruct (isinstance_Mesh _) eqn:Hkind.
  - unfold raise. intros [= <- <-]. now left.
  - intros Hrun. right. split; [reflexivity|].
    unfold bind at 1 in Hrun. unfold lift at 1, try_to_face3d in Hrun.
    destruct (to_face3d obj tolerance) as [faces|e0] eqn:Hfaces.
    + right. right.
      unfold bind at 1 in Hrun.
      destruct (obj_name_of obj ids) as [[obj_name|e1] ids1] eqn:Hname.
      * unfold bind at 1 in Hrun. unfold lift at 1, args_of in Hrun.
        destruct (getitem grid_controls 0) as [c0|e0] eqn:H0;
          [|left; split; [now exists faces | left; congruence]].
        destruct (getitem grid_controls 1) as [c1|e1] eqn:H1;
          [|left; split; [now exists faces | right; congruence]].
        unfold bind, lift, from_face3d_star in Hrun.
        destruct (from_face3d (clean_string obj_name) faces c0 c0 c1) as [sens|e2] eqn:Hsens.
        -- unfold ret in Hrun. discriminate.
        -- right. exists faces, c0, c1, obj_name. injection Hrun as <- _. now repeat split.
      * unfold obj_name_of in Hname. destruct (truthy_str _).
        -- unfold ret in Hname. discriminate.
        -- destruct (clean_and_id_string "Grid" ids). discriminate.
    + destruct e0 as [msg|msg|msg|cls msg]; injection Hrun as <- <-.
      * right. left. split; [reflexivity | discriminate].
      * left. split; [now exists msg | reflexivity].
      * right. left. split; [reflexivity | discriminate].
      * right. left. split; [reflexivity | discriminate].
Qed.

(** [seed_all] over [objs ++ objs'] seeds [objs], then [objs']. *)
Lemma seed_all_app tolerance grid_controls objs objs' ids :
  seed_all tolerance grid_controls (objs ++ objs') ids
  = bind (seed_all tolerance grid_controls objs)
         (λ seeded, bind (seed_all tolerance grid_controls objs')
                         (λ seeded', ret (seeded ++ seeded'))) ids.
Proof.
  revert ids. induction objs as [|obj objs IH]; intros ids.
  - cbn [app seed_all]. unfold bind, ret.
    now destruct (seed_all tolerance grid_controls objs' ids) as [[seeded'|e] ids1].
  - cbn [app seed_all]. unfold bind at 1 3 4.
    destruct (seed_object tolerance grid_controls obj ids) as [[first|e] ids1];
      [|reflexivity].
    unfold bind at 1. rewrite IH. unfold bind, ret.
    destruct (seed_all tolerance grid_controls objs ids1) as [[seeded|e] ids2];
      [|reflexivity].
    now destruct (seed_all tolerance grid_controls objs' ids2) as [[seeded'|e] ids3].
Qed.

(** [seed_object] reads the grid controls at the indices 0 and 1 only. *)
Lemma seed_object_controls_ext tolerance grid_controls grid_controls' obj ids :
  getitem grid_controls 0 = getitem grid_controls' 0 →
  getitem grid_controls 1 = getitem grid_controls' 1 →
  seed_object tolerance grid_controls obj ids
  = seed_object tolerance grid_controls' obj ids.
Proof.
  intros H0 H1. unfold seed_object, args_of. now rewrite H0, H1.
Qed.

Lemma seed_all_controls_ext tolerance grid_controls grid_controls' objs ids :
  getitem grid_controls 0 = getitem grid_controls' 0 →
  getitem grid_controls 1 = getitem grid_controls' 1 →
  seed_all tolerance grid_controls objs ids
  = seed_all tolerance grid_controls' objs ids.
Proof.
  intros H0 H1. revert ids. induction objs as [|obj objs IH]; intros ids; [reflexivity|].
  cbn [seed_all]. unfold bind at 1 3.
  rewrite (seed_object_controls_ext _ _ _ _ _ H0 H1).
  destruct (seed_object tolerance grid_controls' obj ids) as [[first|e] ids1];
    [|reflexivity].
  unfold bind. now rewrite IH.
Qed.

Lemma items_truthy c x rest : items_of c = x :: rest → truthy_controls c = true.
Proof. destruct c as [|b|y|items|items]; cbn; intros Hitems; try discriminate; now subst. Qed.

Lemma loop_body_raises_inv tolerance grid_controls obj acc ids e ids' :
  loop_body tolerance grid_controls obj acc ids = (Raise e, ids') →
  seed_object tolerance grid_controls obj ids = (Raise e, ids').
Proof.
  unfold loop_body, bind.
  destruct (seed_object tolerance grid_controls obj ids) as [[seeded|e1] ids1].
  - unfold ret. discriminate.
  - now intros [= <- <-].
Qed.

Lemma seed_all_generator tolerance grid_controls objs ids seeded ids' :
  seed_all tolerance grid_controls objs ids = (Return seeded, ids') →
  ids' = ids_after objs ids.
Proof.
  revert ids seeded. induction objs as [|obj objs IH]; intros ids seeded Hrun.
  - cbn in Hrun. unfold ret in Hrun. now injection Hrun as _ <-.
  - cbn [seed_all] in Hrun.
    apply bind_returns in Hrun as ([obj_name sens] & ids1 & Hfirst & Hrun).
    apply bind_returns in Hrun as (others & ids2 & Hothers & Hrun).
    unfold ret in Hrun. injection Hrun as _ <-.
    apply seed_object_returns in Hfirst as (_ & faces & x & y & _ & Hname & _).
    rewrite (IH _ _ Hothers). unfold ids_after. cbn [fold_left]. f_equal.
    destruct (truthy_str _).
    + now injection Hname as _ ->.
    + destruct (clean_and_id_string "Grid" ids) as [fresh ids0]. now injection Hname as _ ->.
Qed.

Lemma ids_after_named objs ids :
  Forall (λ obj, ObjectAttributes.Name (File3dmObject.Attributes obj) ≠ "") objs →
  ids_after objs ids = ids.
Proof.
  intros Hnamed. induction Hnamed as [|obj objs Hobj _ IH]; [reflexivity|].
  unfold ids_after in *. cbn [fold_left].
  apply truthy_str_true in Hobj. now rewrite Hobj.
Qed.

Lemma seed_object_getitem_raises tolerance grid_controls obj ids e :
  convertible tolerance obj →
  getitem grid_controls 0 = Raise e
  ∨ (∃ spacing_x, getitem grid_controls 0 = Return spacing_x)
    ∧ getitem grid_controls 1 = Raise e →
  ∃ ids', seed_object tolerance grid_controls obj ids = (Raise e, ids').
Proof.
  intros [Hkind [faces Hfaces]] Hitem. unfold seed_object. rewrite Hkind.
  unfold try_to_face3d. rewrite Hfaces.
  erewrite bind_return; [|reflexivity].
  assert (Hargs : ∀ obj_name, args_of obj_name faces grid_controls = Raise e).
  { intros obj_name. unfold args_of.
    destruct Hitem as [-> | [[x ->] ->]]; reflexivity. }
  unfold obj_name_of. destruct (truthy_str _).
  - erewrite bind_return; [|reflexivity]. rewrite Hargs. now eexists.
  - unfold bind at 1. destruct (clean_and_id_string "Grid" ids) as [fresh ids1].
    rewrite Hargs. now eexists.
Qed.

(** The call raises what [seed_object] raises at the first object. *)
Lemma import_grids_first_raises rhino3dm_file layer tolerance grid_controls child_layer
    ids obj rest e ids' :
  grid_objs_of rhino3dm_file layer child_layer = obj :: rest →
  seed_object tolerance (grid_controls_or_default grid_controls) obj ids = (Raise e, ids') →
  import_grids rhino3dm_file layer tolerance grid_controls child_layer ids = (Raise e, ids').
Proof.
  intros Hobjs Hseed. apply import_grids_loop_raises. rewrite Hobjs. cbn [for_each].
  apply bind_raise. now apply loop_body_raises.
Qed.

(** X5. The converse of C1: when [import_grids] returns, every
    enumerated object is non-mesh and [to_face3d] returned faces for it,
    and, unless there was no object at all, the grid controls hold both
    spacings. *)
Theorem import_grids_returns_only_if
    (rhino3dm_file : File3dm) (layer : Layer.t) (tolerance : float)
    (grid_controls : controls) (child_layer : bool) (ids ids' : IdState)
    (result : list SensorGrid.t * list row) :
  import_grids rhino3dm_file layer tolerance grid_controls child_layer ids
  = (Return result, ids') →
  Forall (convertible tolerance) (grid_objs_of rhino3dm_file layer child_layer)
  ∧ (grid_objs_of rhino3dm_file layer child_layer ≠ [] →
     ∃ spacing_x spacing_y,
       getitem (grid_controls_or_default grid_controls) 0 = Return spacing_x
       ∧ getitem (grid_controls_or_default grid_controls) 1 = Return spacing_y).
Proof.
  rewrite import_grids_eq.
  destruct (seed_all _ _ _ ids) as [[seeded|e] ids1] eqn:Hseeded; [|discriminate].
  intros _. apply seed_all_returns in Hseeded.
  induction Hseeded as [|obj first objs seeded (i & i' & Hfirst) _ IH].
  - split; [constructor | congruence].
  - destruct first as [obj_name sens].
    apply seed_object_returns in Hfirst
      as (Hkind & faces & x & y & Hfaces & _ & H0 & H1 & _).
    split.
    + constructor; [|apply IH]. split; [exact Hkind | now exists faces].
    + intros _. now exists x, y.
Qed.

(** X6. Every exception that [import_grids] raises in its loop comes
    from one enumerated object and is one of five: the [ValueError] for a
    mesh; the [AssertionError] with the check message when [to_face3d]
    failed an assertion; the exception of [to_face3d] itself when it is
    of another class; the error of indexing the grid controls at 0 or 1;
    or the exception of the seeding call of line 102, which is outside
    of the handler and so passes through as it is. *)
Theorem import_grids_raise_causes
    (rhino3dm_file : File3dm) (layer : Layer.t) (tolerance : float)
    (grid_controls : controls) (child_layer : bool) (ids ids' : IdState)
    (e : exception) :
  import_grids rhino3dm_file layer tolerance grid_controls child_layer ids
  = (Raise e, ids') →
  ∃ obj,
    In obj (grid_objs_of rhino3dm_file layer child_layer)
    ∧ (isinstance_Mesh (File3dmObject.Geometry obj) = true
       ∧ e = ValueError "Mesh is not accepted."
       ∨ isinstance_Mesh (File3dmObject.Geometry obj) = false
         ∧ ((∃ msg, to_face3d obj tolerance = Raise (AssertionError msg))
            ∧ e = AssertionError (check_message obj)
            ∨ to_face3d obj tolerance = Raise e ∧ (∀ msg, e ≠ AssertionError msg)
            ∨ (∃ faces, to_face3d obj tolerance = Return faces)
              ∧ (getitem (grid_controls_or_default grid_controls) 0 = Raise e
                 ∨ getitem (grid_controls_or_default grid_controls) 1 = Raise e)
            ∨ (∃ faces spacing_x spacing_y obj_name,
                 to_face3d obj tolerance = Return faces
                 ∧ getitem (grid_controls_or_default grid_controls) 0 = Return spacing_x
                 ∧ getitem (grid_controls_or_default grid_controls) 1 = Return spacing_y
                 ∧ from_face3d (clean_string obj_name) faces spacing_x spacing_x spacing_y
                   = Raise e))).
Proof.
  intros Hrun. apply import_grids_raises_inv in Hrun.
  apply for_each_raises_inv in Hrun as (obj & acc0 & ids0 & Hin & Hbody).
  apply loop_body_raises_inv in Hbody.
  exists obj. split; [exact Hin|]. exact (seed_object_raises_inv _ _ _ _ _ _ Hbody).
Qed.

(** X7. When [import_grids] returns, the summary has one row per
    enumerated object, in the order of the enumeration: the row of an
    object is its working name with the number of sensors seeded for it,
    a number that is not negative, and the working name of an object
    with a stored name is that stored name. *)
Theorem import_grids_summary_rows
    (rhino3dm_file : File3dm) (layer : Layer.t) (tolerance : float)
    (grid_controls : controls) (child_layer : bool) (ids ids' : IdState)
    (hb_grids : list SensorGrid.t) (data : list row) :
  import_grids rhino3dm_file layer tolerance grid_controls child_layer ids
  = (Return (hb_grids, data), ids') →
  Forall2
    (λ obj r,
       ∃ obj_name sens i i',
         seed_object tolerance (grid_controls_or_default grid_controls) obj i
         = (Return (obj_name, sens), i')
         ∧ r = [Str obj_name; Int (SensorGrid.len sens)]
         ∧ (0 ≤ SensorGrid.len sens)%Z
         ∧ (ObjectAttributes.Name (File3dmObject.Attributes obj) ≠ "" →
            obj_name = ObjectAttributes.Name (File3dmObject.Attributes obj)))
    (grid_objs_of rhino3dm_file layer child_layer) data.
Proof.
  rewrite import_grids_eq.
  destruct (seed_all _ _ _ ids) as [[seeded|e] ids1] eqn:Hseeded; [|discriminate].
  intros [= _ <- _]. apply seed_all_returns in Hseeded.
  induction Hseeded as [|obj [obj_name sens] objs seeded (i & i' & Hfirst) _ IH];
    cbn [map]; constructor; [|exact IH].
  exists obj_name, sens, i, i'. split; [exact Hfirst|]. split; [reflexivity|].
  split; [apply Nat2Z.is_nonneg|].
  intros Hnamed. apply seed_object_returns in Hfirst as (_ & faces & x & y & _ & Hname & _).
  apply truthy_str_true in Hnamed. rewrite Hnamed in Hname. now injection Hname as -> _.
Qed.

(** X8. When [import_grids] returns, the identifier generator has been
    drawn on once for each enumerated object without a stored name, in
    the order of the enumeration, and not otherwise: with every object
    named, the generator is left as it was. *)
Theorem import_grids_generator_state
    (rhino3dm_file : File3dm) (layer : Layer.t) (tolerance : float)
    (grid_controls : controls) (child_layer : bool) (ids ids' : IdState)
    (result : list SensorGrid.t * list row) :
  import_grids rhino3dm_file layer tolerance grid_controls child_layer ids
  = (Return result, ids') →
  ids' = ids_after (grid_objs_of rhino3dm_file layer child_layer) ids
  ∧ (Forall (λ obj, ObjectAttributes.Name (File3dmObject.Attributes obj) ≠ "")
            (grid_objs_of rhino3dm_file layer child_layer) →
     ids' = ids).
Proof.
  rewrite import_grids_eq.
  destruct (seed_all _ _ _ ids) as [[seeded|e] ids1] eqn:Hseeded; [|discriminate].
  intros [= _ <-]. apply seed_all_generator in Hseeded. split; [exact Hseeded|].
  intros Hnamed. now rewrite Hseeded, ids_after_named.
Qed.

(** X9. [import_grids] reads the first two grid controls and nothing
    else of them: two sequences, tuples or lists, that agree on their
    first two elements give the same call; the offset in the third place
    has no effect. *)
Theorem import_grids_reads_two_controls
    (rhino3dm_file : File3dm) (layer : Layer.t) (tolerance : float)
    (grid_controls grid_controls' : controls) (child_layer : bool) (ids : IdState)
    (spacing_x spacing_y : float) (rest rest' : list float) :
  items_of grid_controls = spacing_x :: spacing_y :: rest →
  items_of grid_controls' = spacing_x :: spacing_y :: rest' →
  import_grids rhino3dm_file layer tolerance grid_controls child_layer ids
  = import_grids rhino3dm_file layer tolerance grid_controls' child_layer ids.
Proof.
  intros Hitems Hitems'. rewrite !import_grids_eq.
  pose proof (items_truthy _ _ _ Hitems) as Htruthy.
  pose proof (items_truthy _ _ _ Hitems') as Htruthy'.
  unfold grid_controls_or_default. rewrite Htruthy, Htruthy'. cbn [negb].
  rewrite (seed_all_controls_ext tolerance grid_controls grid_controls'); [reflexivity| |].
  - rewrite (getitem_items grid_controls 0 spacing_x), (getitem_items grid_controls' 0 spacing_x);
      try assumption; try reflexivity; [now rewrite Hitems' | now rewrite Hitems].
  - rewrite (getitem_items grid_controls 1 spacing_y), (getitem_items grid_controls' 1 spacing_y);
      try assumption; try reflexivity; [now rewrite Hitems' | now rewrite Hitems].
Qed.

(** X10. Grid controls that are truthy but too short stop the call at
    the first object: with a convertible first object, a one-element
    tuple or list raises the [IndexError] of indexing at 1, and [True]
    the [TypeError] of indexing a bool. *)
Theorem import_grids_short_controls
    (rhino3dm_file : File3dm) (layer : Layer.t) (tolerance : float)
    (child_layer : bool) (ids : IdState) (obj : File3dmObject.t)
    (rest : list File3dmObject.t) (spacing_x : float) :
  grid_objs_of rhino3dm_file layer child_layer = obj :: rest →
  convertible tolerance obj →
  fst (import_grids rhino3dm_file layer tolerance (CTuple [spacing_x]) child_layer ids)
  = Raise (IndexError "tuple index out of range")
  ∧ fst (import_grids rhino3dm_file layer tolerance (CList [spacing_x]) child_layer ids)
    = Raise (IndexError "list index out of range")
  ∧ fst (import_grids rhino3dm_file layer tolerance (CBool true) child_layer ids)
    = Raise (OtherError "TypeError" "'bool' object is not subscriptable").
Proof.
  intros Hobjs Hobj. repeat split.
  - destruct (seed_object_getitem_raises tolerance (CTuple [spacing_x]) obj ids
                (IndexError "tuple index out of range") Hobj) as [ids' Hseed].
    { right. split; [now exists spacing_x | reflexivity]. }
    now rewrite (import_grids_first_raises _ _ _ (CTuple [spacing_x]) _ _ _ _ _ _ Hobjs Hseed).
  - destruct (seed_object_getitem_raises tolerance (CList [spacing_x]) obj ids
                (IndexError "list index out of range") Hobj) as [ids' Hseed].
    { right. split; [now exists spacing_x | reflexivity]. }
    now rewrite (import_grids_first_raises _ _ _ (CList [spacing_x]) _ _ _ _ _ _ Hobjs Hseed).
  - destruct (seed_object_getitem_raises tolerance (CBool true) obj ids
                (OtherError "TypeError" "'bool' object is not subscriptable") Hobj)
      as [ids' Hseed].
    { now left. }
    now rewrite (import_grids_first_raises _ _ _ (CBool true) _ _ _ _ _ _ Hobjs Hseed).
Qed.

(** X11. The loop keeps its accumulators balanced: if [grid_pos] and
    [grid_dir] have the same length and the counts of [data] add up to
    that length before the loop, they do so after it, over any objects. *)
Theorem for_each_keeps_balanced
    (tolerance : float) (grid_controls : controls) (objs : list File3dmObject.t)
    (acc acc' : accumulators) (ids ids' : IdState) :
  balanced acc →
  for_each (loop_body tolerance grid_controls) objs acc ids = (Return acc', ids') →
  balanced acc'.
Proof.
  intros Hbalanced. rewrite for_each_loop_body. intros Hrun.
  apply bind_returns in Hrun as (seeded & ids1 & _ & Hrun).
  unfold ret in Hrun. injection Hrun as <- _.
  destruct acc as [[grid_pos grid_dir] data]. destruct Hbalanced as [Hlen Hsum].
  unfold accumulated, balanced. split.
  - rewrite !length_app, !length_map. now rewrite Hlen.
  - rewrite sum_counts_app, sum_counts_summary, Hsum, length_app, length_map.
    now rewrite Nat2Z.inj_add.
Qed.

(** X12. Objects after a failing one are never looked at: if the call
    raises on an enumeration, it raises the same exception, with the
    generator in the same state, on every enumeration that continues it. *)
Theorem import_grids_fails_at_prefix
    (file file' : File3dm) (layer layer' : Layer.t) (tolerance : float)
    (grid_controls : controls) (child_layer child_layer' : bool) (ids ids' : IdState)
    (before after : list File3dmObject.t) (e : exception) :
  grid_objs_of file layer child_layer = before →
  grid_objs_of file' layer' child_layer' = before ++ after →
  import_grids file layer tolerance grid_controls child_layer ids = (Raise e, ids') →
  import_grids file' layer' tolerance grid_controls child_layer' ids = (Raise e, ids').
Proof.
  intros Hbefore Hall Hrun. apply import_grids_raises_inv in Hrun.
  apply import_grids_loop_raises. rewrite Hall, for_each_app.
  apply bind_raise. now rewrite <- Hbefore.
Qed.

(** X13. Calls compose along the enumeration: if a call returns on one
    enumeration and a second call, started from the generator state the
    first one left, returns on another, then the call on the first
    enumeration followed by the second returns the grid of its own layer
    with the sensors of the first grid followed by those of the second,
    the rows of the first summary followed by those of the second, and
    the generator state of the second call. *)
Theorem import_grids_app
    (file1 file2 file : File3dm) (layer1 layer2 layer : Layer.t) (tolerance : float)
    (grid_controls : controls) (child1 child2 child : bool) (ids ids1 ids2 : IdState)
    (grid1 grid2 : SensorGrid.t) (data1 data2 : list row) :
  grid_objs_of file layer child
  = grid_objs_of file1 layer1 child1 ++ grid_objs_of file2 layer2 child2 →
  import_grids file1 layer1 tolerance grid_controls child1 ids
  = (Return ([grid1], data1), ids1) →
  import_grids file2 layer2 tolerance grid_controls child2 ids1
  = (Return ([grid2], data2), ids2) →
  import_grids file layer tolerance grid_controls child ids
  = (Return ([{| SensorGrid.identifier := Layer.Name layer;
                 SensorGrid.sensors :=
                   SensorGrid.sensors grid1 ++ SensorGrid.sensors grid2 |}],
             data1 ++ data2), ids2).
Proof.
  intros Hobjs. rewrite !import_grids_eq, Hobjs, seed_all_app. unfold bind.
  destruct (seed_all _ _ (grid_objs_of file1 layer1 child1) ids)
    as [[seeded1|e] ids1'] eqn:Hfirst; [|discriminate].
  intros [= <- <- <-].
  destruct (seed_all _ _ (grid_objs_of file2 layer2 child2) ids1')
    as [[seeded2|e] ids2'] eqn:Hsecond; [|discriminate].
  intros [= <- <- <-]. unfold ret. cbn [SensorGrid.sensors].
  now rewrite !map_app, concat_app.
Qed.

End GridFurther.

(** ** The further properties at work on the concrete collaborators *)

Section FurtherRuns.
Import Demo.

(** X4 over the stale file in [out]: it is emptied. *)
Lemma write_csv_no_rows_witness :
  fst (write_csv (DataWriter.Build_t "report" [] (Some "out")) with_out_dir) = Return tt
  ∧ ∃ path,
      snd (write_csv (DataWriter.Build_t "report" [] (Some "out")) with_out_dir)
      = with_file with_out_dir path ""
      ∧ files (snd (write_csv (DataWriter.Build_t "report" [] (Some "out")) with_out_dir))
          !! path = Some ""
      ∧ path_exists (snd (write_csv (DataWriter.Build_t "report" [] (Some "out")) with_out_dir))
          path = true.
Proof.
  assert (Hrun : fst (write_csv (DataWriter.Build_t "report" [] (Some "out")) with_out_dir)
                 = Return tt) by (vm_compute; reflexivity).
  exact (conj Hrun (write_csv_no_rows "report" (Some "out") with_out_dir Hrun)).
Defined.

(** X5 on [good_file]. *)
Lemma import_grids_returns_only_if_witness :
  ∃ result ids',
    import_grids good_file grid_layer 0.5%float CNone false 0 = (Return result, ids')
    ∧ Forall (convertible 0.5%float) (grid_objs_of good_file grid_layer false)
    ∧ (grid_objs_of good_file grid_layer false ≠ [] →
       ∃ spacing_x spacing_y,
         getitem (grid_controls_or_default CNone) 0 = Return spacing_x
         ∧ getitem (grid_controls_or_default CNone) 1 = Return spacing_y).
Proof.
  eexists _, _.
  refine ((λ Hrun, conj Hrun
             (import_grids_returns_only_if good_file grid_layer 0.5%float CNone false 0 _ _
                Hrun)) _).
  reflexivity.
Defined.

(** X6 on [curve_file]: the exception comes from the curve, whose
    seeding raises. *)
Lemma import_grids_raise_causes_witness :
  ∃ e ids',
    import_grids curve_file grid_layer 0.5%float CNone false 0 = (Raise e, ids')
    ∧ ∃ obj,
        In obj (grid_objs_of curve_file grid_layer false)
        ∧ (isinstance_Mesh (File3dmObject.Geometry obj) = true
           ∧ e = ValueError "Mesh is not accepted."
           ∨ isinstance_Mesh (File3dmObject.Geometry obj) = false
             ∧ ((∃ msg, to_face3d obj 0.5%float = Raise (AssertionError msg))
                ∧ e = AssertionError (check_message obj)
                ∨ to_face3d obj 0.5%float = Raise e ∧ (∀ msg, e ≠ AssertionError msg)
                ∨ (∃ faces, to_face3d obj 0.5%float = Return faces)
                  ∧ (getitem (grid_controls_or_default CNone) 0 = Raise e
                     ∨ getitem (grid_controls_or_default CNone) 1 = Raise e)
                ∨ (∃ faces spacing_x spacing_y obj_name,
                     to_face3d obj 0.5%float = Return faces
                     ∧ getitem (grid_controls_or_default CNone) 0 = Return spacing_x
                     ∧ getitem (grid_controls_or_default CNone) 1 = Return spacing_y
                     ∧ from_face3d (clean_string obj_name) faces spacing_x spacing_x
                         spacing_y
                       = Raise e))).
Proof.
  eexists _, _.
  refine ((λ Hrun, conj Hrun
             (import_grids_raise_causes curve_file grid_layer 0.5%float CNone false 0 _ _
                Hrun)) _).
  reflexivity.
Defined.

(** X7 on [good_file]. *)
Lemma import_grids_summary_rows_witness :
  ∃ hb_grids data ids',
    import_grids good_file grid_layer 0.5%float CNone false 0
    = (Return (hb_grids, data), ids')
    ∧ Forall2
        (λ obj r,
           ∃ obj_name sens i i',
             seed_object 0.5%float (grid_controls_or_default CNone) obj i
             = (Return (obj_name, sens), i')
             ∧ r = [Str obj_name; Int (SensorGrid.len sens)]
             ∧ (0 ≤ SensorGrid.len sens)%Z
             ∧ (ObjectAttributes.Name (File3dmObject.Attributes obj) ≠ "" →
                obj_name = ObjectAttributes.Name (File3dmObject.Attributes obj)))
        (grid_objs_of good_file grid_layer false) data.
Proof.
  eexists _, _, _.
  refine ((λ Hrun, conj Hrun
             (import_grids_summary_rows good_file grid_layer 0.5%float CNone false 0 _ _ _
                Hrun)) _).
  reflexivity.
Defined.

(** X8 on [good_file]: one identifier is drawn, for the unnamed floor. *)
Lemma import_grids_generator_state_witness :
  ∃ result,
    import_grids good_file grid_layer 0.5%float CNone false 0 = (Return result, 1)
    ∧ 1 = ids_after (grid_objs_of good_file grid_layer false) 0
    ∧ (Forall (λ obj, ObjectAttributes.Name (File3dmObject.Attributes obj) ≠ "")
              (grid_objs_of good_file grid_layer false) →
       1 = 0).
Proof.
  eexists.
  refine ((λ Hrun, conj Hrun
             (import_grids_generator_state good_file grid_layer 0.5%float CNone false 0 1 _
                Hrun)) _).
  reflexivity.
Defined.

(** X9: a triple as a tuple against its two spacings as a list. *)
Lemma import_grids_reads_two_controls_witness :
  items_of (CTuple [2; 3; 4]%float) = [2; 3; 4]%float
  ∧ items_of (CList [2; 3]%float) = [2; 3]%float
  ∧ import_grids good_file grid_layer 0.5%float (CTuple [2; 3; 4]%float) false 0
    = import_grids good_file grid_layer 0.5%float (CList [2; 3]%float) false 0.
Proof.
  exact (conj eq_refl (conj eq_refl
           (import_grids_reads_two_controls good_file grid_layer 0.5%float
              (CTuple [2; 3; 4]%float) (CList [2; 3]%float) false 0 2%float 3%float
              [4%float] [] eq_refl eq_refl))).
Defined.

(** X10 on [good_file]. *)
Lemma import_grids_short_controls_witness :
  grid_objs_of good_file grid_layer false = floor_a :: [floor_b]
  ∧ convertible 0.5%float floor_a
  ∧ fst (import_grids good_file grid_layer 0.5%float (CTuple [2%float]) false 0)
    = Raise (IndexError "tuple index out of range")
  ∧ fst (import_grids good_file grid_layer 0.5%float (CList [2%float]) false 0)
    = Raise (IndexError "list index out of range")
  ∧ fst (import_grids good_file grid_layer 0.5%float (CBool true) false 0)
    = Raise (OtherError "TypeError" "'bool' object is not subscriptable").
Proof.
  assert (Hobj : convertible 0.5%float floor_a) by (split; [reflexivity | now eexists]).
  exact (conj eq_refl (conj Hobj
           (import_grids_short_controls good_file grid_layer 0.5%float false 0 floor_a
              [floor_b] 2%float eq_refl Hobj))).
Defined.

(** X11 over the two floors, from the empty accumulators. *)
Lemma for_each_keeps_balanced_witness :
  balanced ([], [], [])
  ∧ ∃ acc' ids',
      for_each (loop_body 0.5%float (CTuple [2; 3; 4]%float)) [floor_a; floor_b]
               ([], [], []) 0
      = (Return acc', ids')
      ∧ balanced acc'.
Proof.
  assert (Hstart : balanced ([], [], [])) by (split; reflexivity).
  split; [exact Hstart|]. eexists _, _.
  refine ((λ Hrun, conj Hrun
             (for_each_keeps_balanced 0.5%float (CTuple [2; 3; 4]%float) [floor_a; floor_b]
                ([], [], []) _ 0 _ Hstart Hrun)) _).
  reflexivity.
Defined.

(** X12: the mesh stops [mesh_file] as it stops the file that ends with it. *)
Lemma import_grids_fails_at_prefix_witness :
  grid_objs_of [(1%Z, floor_a); (1%Z, a_mesh)] grid_layer false = [floor_a; a_mesh]
  ∧ grid_objs_of mesh_file grid_layer false = [floor_a; a_mesh] ++ [floor_b]
  ∧ import_grids [(1%Z, floor_a); (1%Z, a_mesh)] grid_layer 0.5%float CNone false 0
    = (Raise (ValueError "Mesh is not accepted."), 0)
  ∧ import_grids mesh_file grid_layer 0.5%float CNone false 0
    = (Raise (ValueError "Mesh is not accepted."), 0).
Proof.
  exact (conj eq_refl (conj eq_refl (conj eq_refl
           (import_grids_fails_at_prefix [(1%Z, floor_a); (1%Z, a_mesh)] mesh_file
              grid_layer grid_layer 0.5%float CNone false false 0 0
              [floor_a; a_mesh] [floor_b] (ValueError "Mesh is not accepted.")
              eq_refl eq_refl eq_refl)))).
Defined.

(** X13: [good_file] as the named floor followed by the unnamed one. *)
Lemma import_grids_app_witness :
  grid_objs_of good_file grid_layer false
  = grid_objs_of [(1%Z, floor_a)] grid_layer false
    ++ grid_objs_of [(7%Z, floor_b)] empty_layer false
  ∧ import_grids [(1%Z, floor_a)] grid_layer 0.5%float CNone false 0
    = (Return ([SensorGrid.Build_t "grid" (repeat (seeded_sensor 1 1 1) 2)],
               [[Str "my grid"; Int 2]]), 0)
  ∧ import_grids [(7%Z, floor_b)] empty_layer 0.5%float CNone false 0
    = (Return ([SensorGrid.Build_t "spare" (repeat (seeded_sensor 1 1 1) 3)],
               [[Str "Grid_0"; Int 3]]), 1)
  ∧ import_grids good_file grid_layer 0.5%float CNone false 0
    = (Return ([{| SensorGrid.identifier := Layer.Name grid_layer;
                   SensorGrid.sensors :=
                     repeat (seeded_sensor 1 1 1) 2 ++ repeat (seeded_sensor 1 1 1) 3 |}],
               [[Str "my grid"; Int 2]] ++ [[Str "Grid_0"; Int 3]]), 1).
Proof.
  exact (conj eq_refl (conj eq_refl (conj eq_refl
           (import_grids_app [(1%Z, floor_a)] [(7%Z, floor_b)] good_file
              grid_layer empty_layer grid_layer 0.5%float CNone false false false
              0 0 1
              (SensorGrid.Build_t "grid" (repeat (seeded_sensor 1 1 1) 2))
              (SensorGrid.Build_t "spare" (repeat (seeded_sensor 1 1 1) 3))
              [[Str "my grid"; Int 2]] [[Str "Grid_0"; Int 3]]
              eq_refl eq_refl eq_refl)))).
Defined.

End FurtherRuns.
